(** * EFactureExpressUI: optimistic invoice cache and status policy

    A shallow embedding of the client-side logic of the invoicing front end:

    - [src/domains/invoices/utils/invoice.permissions.ts]: the role-gated
      capability predicates and the status transition table;
    - [src/App.tsx]: the React state holding the invoice page, the
      optimistic updaters and the create / update / delete / bulk-delete
      handlers;
    - the quote form's [computeTotals].

    Conventions.  A JavaScript number that the code only uses as an integer
    (identifiers, counters, HTTP status codes, status enum values) is a [Z];
    the result of [Math.ceil (a / b)] may be infinite or NaN and has its own
    type.  The amounts of the quote form are IEEE 754 doubles, as in the
    browser; the rounding to two decimals is also stated on exact rationals.
    An [async] handler is a
    function of the state it was called in and of the answers of the
    transport; it returns the final state, how the promise settled and the
    requests it issued.  Toasts, loading flags and translations are
    presentation and are left out. *)

From Stdlib Require Import ZArith QArith Qabs Qround List Ascii String Bool Lia Lqa Permutation.
From Stdlib Require Floats Uint63.
Import ListNotations.

Local Open Scope Z_scope.

(** ** JavaScript values *)

(** [||] on an optional string: [undefined] and the empty string are falsy. *)
Definition str_or (a : option string) (b : string) : string :=
  match a with
  | Some s => if String.eqb s EmptyString then b else s
  | None => b
  end.

Definition opt_str_or (a b : option string) : option string :=
  match a with
  | Some s => if String.eqb s EmptyString then b else Some s
  | None => b
  end.

(** [Array.prototype.includes] on arrays of integers and of strings. *)
Definition includes (l : list Z) (x : Z) : bool := existsb (Z.eqb x) l.

Definition includes_str (l : list string) (x : string) : bool :=
  existsb (String.eqb x) l.

(** The value of [Math.ceil (a / b)] for integers [a] and [b]. *)
Inductive jsnum : Type :=
| JsInt (z : Z)
| JsPosInf
| JsNegInf
| JsNaN.

(** Division of integers followed by [Math.ceil].  [Z.div] rounds towards
    minus infinity for either sign of the divisor, so the ceiling of the
    quotient is [- ((- a) / b)].  Dividing by zero gives an infinity of the
    sign of [a], and NaN for [0 / 0].  On integers below [2^53] in absolute
    value the rounding of the floating-point quotient never crosses an
    integer, so the ceiling of the computed quotient is the exact one. *)
Definition Math_ceil_div (a b : Z) : jsnum :=
  if b =? 0 then
    if a =? 0 then JsNaN else if 0 <? a then JsPosInf else JsNegInf
  else JsInt (- ((- a) / b)).

(** [a < n] where [n] may be infinite or NaN. *)
Definition js_lt (a : Z) (n : jsnum) : bool :=
  match n with
  | JsInt z => a <? z
  | JsPosInf => true
  | JsNegInf => false
  | JsNaN => false
  end.

(** ** invoice.permissions.ts *)

Module Permissions.

(** A role is the string carried by the decoded token. *)
Definition UserRole := string.

Definition InvoiceStatus := Z.

Definition DRAFT : InvoiceStatus := 0.
Definition READY : InvoiceStatus := 1.
Definition AWAITING_CLEARANCE : InvoiceStatus := 2.
Definition VALIDATED : InvoiceStatus := 3.
Definition REJECTED : InvoiceStatus := 4.

Definition canCreateInvoice (userRole : UserRole) : bool :=
  includes_str ["Admin"; "Manager"; "Clerk"]%string userRole.

Definition canModifyInvoice (userRole : UserRole) (invoiceStatus : InvoiceStatus) : bool :=
  if String.eqb userRole "Clerk" then
    invoiceStatus =? DRAFT
  else if String.eqb userRole "Manager" || String.eqb userRole "Admin" then
    (invoiceStatus =? DRAFT) || (invoiceStatus =? READY) || (invoiceStatus =? REJECTED)
  else false.

Definition canDeleteInvoice (userRole : UserRole) (invoiceStatus : InvoiceStatus) : bool :=
  canModifyInvoice userRole invoiceStatus.

Definition canChangeInvoiceStatus (userRole : UserRole) (invoiceStatus : InvoiceStatus) : bool :=
  if String.eqb userRole "Clerk" then
    false
  else if String.eqb userRole "Manager" || String.eqb userRole "Admin" then
    (invoiceStatus =? DRAFT) || (invoiceStatus =? READY) || (invoiceStatus =? REJECTED)
  else false.

Definition canSubmitInvoice (userRole : UserRole) (invoiceStatus : InvoiceStatus) : bool :=
  (String.eqb userRole "Manager" || String.eqb userRole "Admin")
  && (invoiceStatus =? READY).

Definition canPerformDGIStatusCheck (userRole : UserRole) (invoiceStatus : InvoiceStatus) : bool :=
  (String.eqb userRole "Manager" || String.eqb userRole "Admin")
  && (invoiceStatus =? AWAITING_CLEARANCE).

Definition canAccessRejectionReason (userRole : UserRole) (invoiceStatus : InvoiceStatus) : bool :=
  invoiceStatus =? REJECTED.

Definition getValidStatusTransitions (userRole : UserRole) (currentStatus : InvoiceStatus)
  : list InvoiceStatus :=
  if String.eqb userRole "Clerk" then
    [currentStatus]
  else if currentStatus =? DRAFT then [DRAFT; READY]
  else if currentStatus =? READY then [DRAFT; READY]
  else if currentStatus =? AWAITING_CLEARANCE then [AWAITING_CLEARANCE]
  else if currentStatus =? VALIDATED then [VALIDATED]
  else if currentStatus =? REJECTED then [DRAFT; REJECTED]
  else [currentStatus].

Definition canTransitionToStatus (userRole : UserRole)
  (currentStatus targetStatus : InvoiceStatus) : bool :=
  let validTransitions := getValidStatusTransitions userRole currentStatus in
  includes validTransitions targetStatus.

Inductive BulkOperation : Type := BulkDelete | BulkSubmit.

Definition canSelectForBulkOperation (userRole : UserRole)
  (invoiceStatus : InvoiceStatus) (operation : BulkOperation) : bool :=
  match operation with
  | BulkDelete => canDeleteInvoice userRole invoiceStatus
  | BulkSubmit => canSubmitInvoice userRole invoiceStatus
  end.

Record ActionPermissions : Type := {
  canEdit : bool;
  canDelete : bool;
  canSubmit : bool;
  canChangeStatus : bool;
  canCheckDGIStatus : bool;
  canViewRejectionReason : bool;
  validStatusTransitions : list InvoiceStatus
}.

Definition getInvoiceActionPermissions (userRole : UserRole) (invoiceStatus : InvoiceStatus)
  : ActionPermissions :=
  {| canEdit := canModifyInvoice userRole invoiceStatus;
     canDelete := canDeleteInvoice userRole invoiceStatus;
     canSubmit := canSubmitInvoice userRole invoiceStatus;
     canChangeStatus := canChangeInvoiceStatus userRole invoiceStatus;
     canCheckDGIStatus := canPerformDGIStatusCheck userRole invoiceStatus;
     canViewRejectionReason := canAccessRejectionReason userRole invoiceStatus;
     validStatusTransitions := getValidStatusTransitions userRole invoiceStatus |}.

End Permissions.

(** ** The record schema and the React state of App.tsx *)

Module App.

Record Customer : Type := {
  customer_id : Z;
  customer_name : string
}.

Record InvoiceLine : Type := {
  line_id : Q;
  line_description : string;
  line_quantity : Q;
  line_unitPrice : Q;
  line_total : Q;
  line_invoiceId : Z;
  line_taxRate : option Q
}.

Record CreatedBy : Type := {
  createdById : string;
  createdBy_name : string;
  createdBy_email : string
}.

Record Invoice : Type := {
  id : Z;
  invoiceNumber : string;
  date : string;
  customer : Customer;
  subTotal : Q;
  vat : Q;
  total : Q;
  status : Z;
  lines : list InvoiceLine;
  createdAt : string;
  createdBy : CreatedBy;
  dgiSubmissionId : option string;
  dgiRejectionReason : option string
}.

(** The draft handed over by the form ([NewInvoice]); [id] is optional. *)
Record NewLine : Type := {
  nl_description : string;
  nl_quantity : Q;
  nl_unitPrice : Q;
  nl_taxRate : option Q
}.

Record NewInvoice : Type := {
  ni_id : option Z;
  ni_invoiceNumber : string;
  ni_date : string;
  ni_customerId : Z;
  ni_subTotal : Q;
  ni_vat : Q;
  ni_total : Q;
  ni_status : Z;
  ni_lines : list NewLine
}.

Record Pagination : Type := {
  page : Z;
  pageSize : Z;
  totalItems : Z;
  totalPages : jsnum
}.

(** The body of the list endpoint, kept in [invoiceListData]. *)
Record ListData : Type := {
  ld_invoices : list Invoice;
  pagination : Pagination
}.

(** Modelled from the spec: the persistent store behind [tokenManager]
    (utils/tokenManager is not part of the sources).  It holds the bearer
    credential, the refresh credential and the decoded user data;
    [clearAuthData] empties it (session teardown). *)
Record TokenStore : Type := {
  stored_token : option string;
  stored_refreshToken : option string;
  stored_role : option string;
  stored_userId : option string;
  stored_company : option string
}.

Definition clearAuthData (_ : TokenStore) : TokenStore :=
  {| stored_token := None;
     stored_refreshToken := None;
     stored_role := None;
     stored_userId := None;
     stored_company := None |}.

(** The part of the component state the mutation handlers touch:
    [token], the legacy [invoices] array, the page [invoiceListData]
    that is handed to the list view, and the store of [tokenManager]. *)
Record AppState : Type := {
  token : option string;
  invoices : list Invoice;
  invoiceListData : option ListData;
  tokenManager : TokenStore
}.

Definition setToken (t : option string) (st : AppState) : AppState :=
  {| token := t;
     invoices := invoices st;
     invoiceListData := invoiceListData st;
     tokenManager := tokenManager st |}.

Definition setInvoices (f : list Invoice -> list Invoice) (st : AppState) : AppState :=
  {| token := token st;
     invoices := f (invoices st);
     invoiceListData := invoiceListData st;
     tokenManager := tokenManager st |}.

Definition setInvoiceListData (f : option ListData -> option ListData)
  (st : AppState) : AppState :=
  {| token := token st;
     invoices := invoices st;
     invoiceListData := f (invoiceListData st);
     tokenManager := tokenManager st |}.

Definition tokenManager_clearAuthData (st : AppState) : AppState :=
  {| token := token st;
     invoices := invoices st;
     invoiceListData := invoiceListData st;
     tokenManager := clearAuthData (tokenManager st) |}.

(** *** Optimistic updaters *)

Definition optimisticallyUpdateInvoice (updatedInvoice : Invoice) : AppState -> AppState :=
  setInvoices (map (fun inv => if id inv =? id updatedInvoice then updatedInvoice else inv)).

Definition optimisticallyRemoveInvoice (i : Z) : AppState -> AppState :=
  setInvoices (filter (fun inv => negb (id inv =? i))).

Definition optimisticallyAddInvoice (newInvoice : Invoice) : AppState -> AppState :=
  setInvoices (fun prev => newInvoice :: prev).

Definition withStatus (newStatus : Z) (sub rej : option string) (inv : Invoice) : Invoice :=
  {| id := id inv;
     invoiceNumber := invoiceNumber inv;
     date := date inv;
     customer := customer inv;
     subTotal := subTotal inv;
     vat := vat inv;
     total := total inv;
     status := newStatus;
     lines := lines inv;
     createdAt := createdAt inv;
     createdBy := createdBy inv;
     dgiSubmissionId := opt_str_or sub (dgiSubmissionId inv);
     dgiRejectionReason := opt_str_or rej (dgiRejectionReason inv) |}.

Definition mapListInvoices (f : list Invoice -> list Invoice) (prev : option ListData)
  : option ListData :=
  match prev with
  | None => None
  | Some d => Some {| ld_invoices := f (ld_invoices d); pagination := pagination d |}
  end.

Definition optimisticallyUpdateInvoiceStatus (i : Z) (newStatus : Z)
  (sub rej : option string) (st : AppState) : AppState :=
  let upd := map (fun inv => if id inv =? i then withStatus newStatus sub rej inv else inv) in
  setInvoiceListData (mapListInvoices upd) (setInvoices upd st).

Definition silentlyUpdateInvoiceInList (updatedInvoice : Invoice) : AppState -> AppState :=
  setInvoiceListData
    (mapListInvoices
       (map (fun inv => if id inv =? id updatedInvoice then updatedInvoice else inv))).

(** The three updaters that change the pagination.  Each spreads the
    previous pagination and overwrites [totalItems] and [totalPages]. *)
Definition withTotal (n : Z) (p : Pagination) : Pagination :=
  {| page := page p;
     pageSize := pageSize p;
     totalItems := n;
     totalPages := Math_ceil_div n (pageSize p) |}.

(** [silentlyAddInvoiceToList], as a function of the previous value. *)
Definition addToList (newInvoice : Invoice) (prev : option ListData) : option ListData :=
  match prev with
  | None => None
  | Some d =>
      Some {| ld_invoices := newInvoice :: ld_invoices d;
              pagination := withTotal (totalItems (pagination d) + 1) (pagination d) |}
  end.

Definition silentlyAddInvoiceToList (newInvoice : Invoice) : AppState -> AppState :=
  setInvoiceListData (addToList newInvoice).

(** The updater inside [handleDeleteInvoice]. *)
Definition removeFromList (i : Z) (prev : option ListData) : option ListData :=
  match prev with
  | None => None
  | Some d =>
      Some {| ld_invoices := filter (fun inv => negb (id inv =? i)) (ld_invoices d);
              pagination := withTotal (totalItems (pagination d) - 1) (pagination d) |}
  end.

(** The updater inside [handleBulkDelete]. *)
Definition bulkRemoveFromList (ids : list Z) (prev : option ListData) : option ListData :=
  match prev with
  | None => None
  | Some d =>
      Some {| ld_invoices := filter (fun inv => negb (includes ids (id inv))) (ld_invoices d);
              pagination :=
                withTotal (totalItems (pagination d) - Z.of_nat (List.length ids)) (pagination d) |}
  end.

(** *** The transport and the environment *)

(** What a handler reads from the clock and the random generator:
    the successive readings of [Date.now()] and of [Math.random()],
    numbered from 0 in evaluation order, and the ISO date of
    [new Date()]. *)
Record Env : Type := {
  clock : nat -> Z;
  random : nat -> Q;
  isoDate : string
}.

(** A structured error body; [tempInvoiceId] is the field the [catch]
    block of [handleCreateInvoice] looks at. *)
Record ErrorData : Type := {
  err_message : option string;
  err_tempInvoiceId : option Z
}.

(** A response, through the accessors the handlers use: the status
    line, the result of [response.json()] on the error path ([None] when it
    throws), whether [response.text()] is blank after [trim], and the result
    of parsing the body as an invoice or as a list page ([None] when the
    parse throws). *)
Record Response : Type := {
  resp_status : Z;
  resp_statusText : string;
  resp_error : option ErrorData;
  resp_blank : bool;
  resp_invoice : option Invoice;
  resp_list : option ListData
}.

(** [response.ok]. *)
Definition ok (r : Response) : bool :=
  (200 <=? resp_status r) && (resp_status r <=? 299).

Inductive FetchResult : Type :=
| NetworkError
| Responded (r : Response).

Inductive Request : Type :=
| ReqCreate (body : NewInvoice)
| ReqUpdate (i : Z) (body : NewInvoice)
| ReqDelete (i : Z)
| ReqList (pg pgSize : Z).

(** The answer to the [k]-th [fetch] of one handler invocation. *)
Definition Transport : Type := nat -> Request -> FetchResult.

(** What a handler throws. *)
Inductive Thrown : Type :=
| ThrownData (e : ErrorData)
| ThrownHttp (st : Z) (statusText : string)
| ThrownNetwork
| ThrownNotFound.

Inductive Outcome : Type :=
| Resolved
| Rejected (t : Thrown).

Record Settled : Type := {
  final : AppState;
  outcome : Outcome;
  issued : list Request
}.

(** The error path's [errorData]: the parsed body, or the fallback
    object built from the status line. *)
Definition errorDataOf (r : Response) : Thrown :=
  match resp_error r with
  | Some e => ThrownData e
  | None => ThrownHttp (resp_status r) (resp_statusText r)
  end.

(** [err.tempInvoiceId] when truthy. *)
Definition thrown_tempInvoiceId (t : Thrown) : option Z :=
  match t with
  | ThrownData e =>
      match err_tempInvoiceId e with
      | Some k => if k =? 0 then None else Some k
      | None => None
      end
  | _ => None
  end.

(** [s.split('@')[0]]. *)
Fixpoint before_at (s : string) : string :=
  match s with
  | EmptyString => EmptyString
  | String c rest =>
      if Ascii.eqb c "@"%char then EmptyString else String c (before_at rest)
  end.

(** *** handleCreateInvoice *)

Fixpoint tempLines (env : Env) (k : nat) (ls : list NewLine) : list InvoiceLine :=
  match ls with
  | [] => []
  | line :: rest =>
      {| line_id := (inject_Z (clock env (1 + 2 * k)) + random env k)%Q;
         line_description := nl_description line;
         line_quantity := nl_quantity line;
         line_unitPrice := nl_unitPrice line;
         line_total := (nl_quantity line * nl_unitPrice line)%Q;
         line_invoiceId := clock env (2 + 2 * k);
         line_taxRate := nl_taxRate line |}
      :: tempLines env (S k) rest
  end.

Definition tempInvoice (env : Env) (userEmail : string) (newInvoice : NewInvoice)
  (customerName : option string) : Invoice :=
  {| id := clock env 0;
     invoiceNumber := ni_invoiceNumber newInvoice;
     date := ni_date newInvoice;
     customer := {| customer_id := ni_customerId newInvoice;
                    customer_name := str_or customerName "Unknown Customer" |};
     subTotal := ni_subTotal newInvoice;
     vat := ni_vat newInvoice;
     total := ni_total newInvoice;
     status := ni_status newInvoice;
     lines := tempLines env 0 (ni_lines newInvoice);
     createdAt := isoDate env;
     createdBy := {| createdById := "";
                     createdBy_name := str_or (Some (before_at userEmail)) "User";
                     createdBy_email := userEmail |};
     dgiSubmissionId := None;
     dgiRejectionReason := None |}.

Definition handleCreateInvoice (env : Env) (userEmail : string) (net : Transport)
  (newInvoice : NewInvoice) (customerName : option string) (st : AppState) : Settled :=
  let tmp := tempInvoice env userEmail newInvoice customerName in
  let st1 := optimisticallyAddInvoice tmp st in
  let req := ReqCreate newInvoice in
  match net 0%nat req with
  | NetworkError =>
      (* the rejection of [fetch] carries no [tempInvoiceId] *)
      {| final := st1; outcome := Rejected ThrownNetwork; issued := [req] |}
  | Responded response =>
      if resp_status response =? 401 then
        {| final := optimisticallyRemoveInvoice (id tmp)
                      (setToken None (tokenManager_clearAuthData st1));
           outcome := Resolved;
           issued := [req] |}
      else if negb (ok response) then
        let errorData := errorDataOf response in
        let st2 := optimisticallyRemoveInvoice (id tmp) st1 in
        let st3 := match thrown_tempInvoiceId errorData with
                   | Some k => optimisticallyRemoveInvoice k st2
                   | None => st2
                   end in
        {| final := st3; outcome := Rejected errorData; issued := [req] |}
      else if resp_blank response then
        {| final := optimisticallyRemoveInvoice (id tmp) st1;
           outcome := Resolved;
           issued := [req] |}
      else
        match resp_invoice response with
        | Some createdInvoice =>
            {| final := silentlyAddInvoiceToList createdInvoice
                          (optimisticallyAddInvoice createdInvoice
                             (optimisticallyRemoveInvoice (id tmp) st1));
               outcome := Resolved;
               issued := [req] |}
        | None =>
            {| final := optimisticallyRemoveInvoice (id tmp) st1;
               outcome := Resolved;
               issued := [req] |}
        end
  end.

(** *** handleUpdateInvoice *)

Fixpoint editedLines (env : Env) (invId : Z) (k : nat) (ls : list NewLine)
  : list InvoiceLine :=
  match ls with
  | [] => []
  | line :: rest =>
      {| line_id := (inject_Z (clock env k) + random env k)%Q;
         line_description := nl_description line;
         line_quantity := nl_quantity line;
         line_unitPrice := nl_unitPrice line;
         line_total := (nl_quantity line * nl_unitPrice line)%Q;
         line_invoiceId := invId;
         line_taxRate := nl_taxRate line |}
      :: editedLines env invId (S k) rest
  end.

Definition updatedInvoice (env : Env) (invId : Z) (originalInvoice : Invoice)
  (invoice : NewInvoice) (customerName : option string) : Invoice :=
  {| id := id originalInvoice;
     invoiceNumber := ni_invoiceNumber invoice;
     date := ni_date invoice;
     customer := {| customer_id := ni_customerId invoice;
                    customer_name :=
                      str_or customerName (customer_name (customer originalInvoice)) |};
     subTotal := ni_subTotal invoice;
     vat := ni_vat invoice;
     total := ni_total invoice;
     status := ni_status invoice;
     lines := editedLines env invId 0 (ni_lines invoice);
     createdAt := createdAt originalInvoice;
     createdBy := createdBy originalInvoice;
     dgiSubmissionId := dgiSubmissionId originalInvoice;
     dgiRejectionReason := dgiRejectionReason originalInvoice |}.

(** [invoice.id] when truthy: present and not 0. *)
Definition truthy_id (i : option Z) : option Z :=
  match i with
  | Some k => if k =? 0 then None else Some k
  | None => None
  end.

Definition handleUpdateInvoice (env : Env) (net : Transport)
  (invoice : NewInvoice) (customerName : option string) (st : AppState) : Settled :=
  match truthy_id (ni_id invoice) with
  | None => {| final := st; outcome := Resolved; issued := [] |}
  | Some invId =>
      match find (fun inv => id inv =? invId) (invoices st) with
      | None => {| final := st; outcome := Rejected ThrownNotFound; issued := [] |}
      | Some originalInvoice =>
          let updated := updatedInvoice env invId originalInvoice invoice customerName in
          let st1 := optimisticallyUpdateInvoice updated st in
          let req := ReqUpdate invId invoice in
          match net 0%nat req with
          | NetworkError =>
              {| final := st1; outcome := Rejected ThrownNetwork; issued := [req] |}
          | Responded response =>
              if resp_status response =? 401 then
                {| final := optimisticallyUpdateInvoice originalInvoice
                              (setToken None (tokenManager_clearAuthData st1));
                   outcome := Resolved;
                   issued := [req] |}
              else if negb (ok response) then
                {| final := optimisticallyUpdateInvoice originalInvoice st1;
                   outcome := Rejected (errorDataOf response);
                   issued := [req] |}
              else if resp_blank response then
                {| final := silentlyUpdateInvoiceInList updated st1;
                   outcome := Resolved;
                   issued := [req] |}
              else
                match resp_invoice response with
                | Some serverUpdatedInvoice =>
                    {| final := silentlyUpdateInvoiceInList serverUpdatedInvoice
                                  (optimisticallyUpdateInvoice serverUpdatedInvoice st1);
                       outcome := Resolved;
                       issued := [req] |}
                | None =>
                    {| final := silentlyUpdateInvoiceInList updated st1;
                       outcome := Resolved;
                       issued := [req] |}
                end
          end
      end
  end.

(** *** handleDeleteInvoice *)

(** The silent refresh of the current page: the request, and the state
    once its answer (the [k]-th of this invocation) has been handled.
    Failures of any kind leave the state as it is. *)
Definition refreshRequest (d : ListData) : Request :=
  ReqList (page (pagination d)) (pageSize (pagination d)).

Definition refreshPage (net : Transport) (k : nat) (d : ListData) (st : AppState)
  : AppState :=
  match net k (refreshRequest d) with
  | NetworkError => st
  | Responded response =>
      if ok response then
        match resp_list response with
        | Some refreshedData => setInvoiceListData (fun _ => Some refreshedData) st
        | None => st
        end
      else st
  end.

Definition handleDeleteInvoice (net : Transport) (i : Z) (st : AppState) : Settled :=
  let originalData := invoiceListData st in
  match find (fun inv => id inv =? i) (invoices st) with
  | None => {| final := st; outcome := Resolved; issued := [] |}
  | Some originalInvoice =>
      let willPageBeIncomplete :=
        match invoiceListData st with
        | Some d =>
            (Z.of_nat (List.length (ld_invoices d)) =? pageSize (pagination d))
            && js_lt (page (pagination d)) (totalPages (pagination d))
        | None => false
        end in
      let st1 := optimisticallyRemoveInvoice i st in
      let st2 := match invoiceListData st with
                 | Some _ => setInvoiceListData (removeFromList i) st1
                 | None => st1
                 end in
      let req := ReqDelete i in
      match net 0%nat req with
      | NetworkError =>
          (* caught at the end of the handler: only a toast *)
          {| final := st2; outcome := Resolved; issued := [req] |}
      | Responded response =>
          if resp_status response =? 401 then
            {| final := setInvoiceListData (fun _ => originalData)
                          (optimisticallyAddInvoice originalInvoice
                             (setToken None (tokenManager_clearAuthData st2)));
               outcome := Resolved;
               issued := [req] |}
          else if negb (ok response) then
            {| final := setInvoiceListData (fun _ => originalData)
                          (optimisticallyAddInvoice originalInvoice st2);
               outcome := Resolved;
               issued := [req] |}
          else
            match invoiceListData st with
            | Some d =>
                if willPageBeIncomplete then
                  {| final := refreshPage net 1 d st2;
                     outcome := Resolved;
                     issued := [req; refreshRequest d] |}
                else {| final := st2; outcome := Resolved; issued := [req] |}
            | None => {| final := st2; outcome := Resolved; issued := [req] |}
            end
      end
  end.

(** *** handleBulkDelete *)

(** One [DELETE] per id, all issued before any answer is awaited. *)
Fixpoint deleteRequests (ids : list Z) : list Request :=
  match ids with
  | [] => []
  | i :: rest => ReqDelete i :: deleteRequests rest
  end.

Fixpoint deleteAnswers (net : Transport) (k : nat) (ids : list Z) : list FetchResult :=
  match ids with
  | [] => []
  | i :: rest => net k (ReqDelete i) :: deleteAnswers net (S k) rest
  end.

Definition unauthenticated (a : FetchResult) : bool :=
  match a with
  | NetworkError => false
  | Responded response => resp_status response =? 401
  end.

(** Whether the per-id callback throws on this answer. *)
Definition rejects (a : FetchResult) : bool :=
  match a with
  | NetworkError => true
  | Responded response => (resp_status response =? 401) || negb (ok response)
  end.

(** [Promise.all] rejects as soon as one callback throws and the [catch]
    block rolls back; callbacks that settle later still run, and the only
    state they touch is the session (on a 401).  The final state does not
    depend on the order in which the answers arrive. *)
Definition handleBulkDelete (net : Transport) (ids : list Z) (st : AppState) : Settled :=
  let originalData := invoiceListData st in
  let originalInvoices := filter (fun inv => includes ids (id inv)) (invoices st) in
  let willPageBeIncomplete :=
    match invoiceListData st with
    | Some d =>
        (Z.of_nat (List.length (ld_invoices d)) =? pageSize (pagination d))
        && (0 <? Z.of_nat (List.length ids))
        && js_lt (page (pagination d)) (totalPages (pagination d))
    | None => false
    end in
  let st1 := fold_left (fun s i => optimisticallyRemoveInvoice i s) ids st in
  let st2 := match invoiceListData st with
             | Some _ => setInvoiceListData (bulkRemoveFromList ids) st1
             | None => st1
             end in
  let answers := deleteAnswers net 0 ids in
  let st3 := if existsb unauthenticated answers
             then setToken None (tokenManager_clearAuthData st2)
             else st2 in
  if existsb rejects answers then
    {| final := setInvoiceListData (fun _ => originalData)
                  (fold_left (fun s inv => optimisticallyAddInvoice inv s)
                     originalInvoices st3);
       outcome := Resolved;
       issued := deleteRequests ids |}
  else
    match invoiceListData st with
    | Some d =>
        if willPageBeIncomplete then
          {| final := refreshPage net (List.length ids) d st3;
             outcome := Resolved;
             issued := deleteRequests ids ++ [refreshRequest d] |}
        else {| final := st3; outcome := Resolved; issued := deleteRequests ids |}
    | None => {| final := st3; outcome := Resolved; issued := deleteRequests ids |}
    end.

(** *** Sequences of pagination-changing mutations *)

Inductive CacheOp : Type :=
| AddToList (newInvoice : Invoice)
| DeleteOne (i : Z)
| DeleteMany (ids : list Z).

Definition applyOp (op : CacheOp) (prev : option ListData) : option ListData :=
  match op with
  | AddToList newInvoice => addToList newInvoice prev
  | DeleteOne i => removeFromList i prev
  | DeleteMany ids => bulkRemoveFromList ids prev
  end.

(** The cache after each operation of a sequence, in order. *)
Fixpoint cacheTrace (ops : list CacheOp) (prev : option ListData)
  : list (option ListData) :=
  match ops with
  | [] => []
  | op :: rest => applyOp op prev :: cacheTrace rest (applyOp op prev)
  end.

(** [totalPages] is what [Math.ceil (totalItems / pageSize)] evaluates to. *)
Definition paginationConsistent (p : Pagination) : Prop :=
  totalPages p = Math_ceil_div (totalItems p) (pageSize p).

Definition cacheConsistent (c : option ListData) : Prop :=
  match c with
  | None => True
  | Some d => paginationConsistent (pagination d)
  end.

(** The mathematical ceiling: [c] is the least integer with
    [totalItems <= c * pageSize]. *)
Definition isCeiling (n size c : Z) : Prop :=
  (c - 1) * size < n <= c * size.

End App.

(** ** QuoteForm: rounding to two decimals, on exact amounts *)

Module QuoteForm.

Local Open Scope Q_scope.

(** A line of the form state, with exact amounts. *)
Record NewLine : Type := {
  description : string;
  quantity : Q;
  unitPrice : Q;
  taxRate : option Q
}.

(** Rounding of a non-negative number to the nearest hundredth, the
    larger one on a tie. *)
Definition roundCents (x : Q) : Z := Qfloor (x * 100 + (1 # 2)).

(** [+x.toFixed(2)] read on exact amounts: numbers of magnitude [10^21]
    and above are printed in full and come back unchanged; the others are
    rounded on their absolute value, the sign being put back afterwards. *)
Definition toFixed2 (x : Q) : Q :=
  if Qle_bool (inject_Z (10 ^ 21)) (Qabs x) then x
  else if Qle_bool 0 x then inject_Z (roundCents x) / 100
  else - (inject_Z (roundCents (- x)) / 100).

End QuoteForm.

(** ** QuoteForm: computeTotals *)

(** The totals of the quote form, on IEEE 754 double-precision numbers,
    the numbers JavaScript computes with: every [+], [*] and [/] is the
    correctly rounded operation of the standard. *)
Module QuoteFormBinary64.

Import Floats.

Record NewLine : Type := {
  description : string;
  quantity : float;
  unitPrice : float;
  taxRate : option float
}.

(** [ln.taxRate ?? 20]. *)
Definition taxRateOr20 (ln : NewLine) : float :=
  match taxRate ln with
  | Some r => r
  | None => 20%float
  end.

(** The exact value of the finite double of mantissa [m] and exponent
    [e]. *)
Definition exactValue (m : positive) (e : Z) : Q :=
  if 0 <=? e then inject_Z (Z.pos m * 2 ^ e)
  else (inject_Z (Z.pos m) / inject_Z (2 ^ (- e)))%Q.

(** The integer nearest to [m * 2^e * 100], the larger one on a tie. *)
Definition centsOf (m : positive) (e : Z) : Z :=
  if 0 <=? e then Z.pos m * 2 ^ e * 100
  else (2 * (Z.pos m * 100) + 2 ^ (- e)) / 2 ^ (1 - e).

(** The double nearest to [n / 100], ties to even: what reading the
    decimal string with two digits gives back. *)
Definition centsToFloat (n : Z) : float :=
  match n with
  | Z.pos p => SF2Prim (SF64div (S754_finite false p 0) (S754_finite false 100 0))
  | _ => 0%float
  end.

(** [+x.toFixed(2)]: NaN and the infinities are printed as such and come
    back unchanged, as do the numbers of magnitude [10^21] and above; the
    others are rounded on their absolute value to a whole number of cents,
    the sign being put back afterwards. *)
Definition toFixed2 (x : float) : float :=
  match Prim2SF x with
  | S754_finite s m e =>
      if PrimFloat.leb 1e21%float (PrimFloat.abs x) then x
      else
        let r := centsToFloat (centsOf m e) in
        if s then PrimFloat.opp r else r
  | S754_zero _ => 0%float
  | _ => x
  end.

Record Totals : Type := {
  subTotal : float;
  vat : float;
  total : float
}.

Definition computeTotals (lines : list NewLine) : Totals :=
  let sub := fold_left
               (fun sum ln => PrimFloat.add sum (PrimFloat.mul (quantity ln) (unitPrice ln)))
               lines 0%float in
  let vat := fold_left
               (fun sum ln =>
                  PrimFloat.add sum
                    (PrimFloat.div
                       (PrimFloat.mul (PrimFloat.mul (quantity ln) (unitPrice ln))
                          (taxRateOr20 ln))
                       100%float))
               lines 0%float in
  {| subTotal := toFixed2 sub;
     vat := toFixed2 vat;
     total := toFixed2 (PrimFloat.add sub vat) |}.

(** The amounts the totals are made of: the amount and the tax of one
    line, and the sum of a list of numbers from left to right, starting
    from 0. *)
Definition lineAmount (ln : NewLine) : float :=
  PrimFloat.mul (quantity ln) (unitPrice ln).

Definition lineTax (ln : NewLine) : float :=
  PrimFloat.div (PrimFloat.mul (PrimFloat.mul (quantity ln) (unitPrice ln)) (taxRateOr20 ln))
    100%float.

Fixpoint sumFrom (acc : float) (amounts : list float) : float :=
  match amounts with
  | [] => acc
  | a :: rest => sumFrom (PrimFloat.add acc a) rest
  end.

Definition sumOf (amounts : list float) : float := sumFrom 0%float amounts.

(** The line [addLine] appends, also the single line of a new form. *)
Definition blankLine : NewLine :=
  {| description := "";
     quantity := 1%float;
     unitPrice := 0%float;
     taxRate := Some 20%float |}.

Definition addLine (lines : list NewLine) : list NewLine :=
  lines ++ [blankLine].

(** 0.3 units at 4.21, taxed at 20 %; the two decimal literals denote the
    doubles nearest to them. *)
Definition fractionalLine : NewLine :=
  {| description := "Conseil";
     quantity := 0x1.3333333333333p-2%float;
     unitPrice := 0x1.0d70a3d70a3d7p+2%float;
     taxRate := Some 20%float |}.

(** The doubles nearest to 1.26, 0.25, 1.52 and 1.51. *)
#[warnings="-inexact-float"]
Definition shownTotals : Totals :=
  {| subTotal := 1.26%float; vat := 0.25%float; total := 1.52%float |}.

#[warnings="-inexact-float"]
Definition shownSum : float := 1.51%float.

(** Two more lines, 1 unit at 0.75 taxed at 10 % and 3 units at 0.155
    taxed at 100 %, with the totals a browser shows for each: the tax of the
    first is 0.07 (0.075 is not a double, the nearest one lies below it), the
    subtotal of the second is 0.46 and its tax 0.47. *)
Definition tenPercentLine : NewLine :=
  {| description := "Frais";
     quantity := 1%float;
     unitPrice := 0.75%float;
     taxRate := Some 10%float |}.

#[warnings="-inexact-float"]
Definition tenPercentTotals : Totals :=
  {| subTotal := 0.75%float; vat := 0.07%float; total := 0.82%float |}.

#[warnings="-inexact-float"]
Definition fullTaxLine : NewLine :=
  {| description := "Timbre";
     quantity := 3%float;
     unitPrice := 0.155%float;
     taxRate := Some 100%float |}.

#[warnings="-inexact-float"]
Definition fullTaxTotals : Totals :=
  {| subTotal := 0.46%float; vat := 0.47%float; total := 0.93%float |}.

End QuoteFormBinary64.

(** ** Sample data *)

Module Samples.

Import App.
Local Open Scope string_scope.

Definition sampleInvoice (i : Z) : Invoice :=
  {| id := i;
     invoiceNumber := "INV";
     date := "2025-01-15";
     customer := {| customer_id := 7; customer_name := "Atlas SARL" |};
     subTotal := 100;
     vat := 20;
     total := 120;
     status := 0;
     lines := [];
     createdAt := "2025-01-15T09:00:00.000Z";
     createdBy := {| createdById := "u1";
                     createdBy_name := "amal";
                     createdBy_email := "amal@example.com" |};
     dgiSubmissionId := None;
     dgiRejectionReason := None |}.

Definition sampleDraft (i : option Z) : NewInvoice :=
  {| ni_id := i;
     ni_invoiceNumber := "INV-NEW";
     ni_date := "2025-02-01";
     ni_customerId := 7;
     ni_subTotal := 50;
     ni_vat := 10;
     ni_total := 60;
     ni_status := 0;
     ni_lines := [ {| nl_description := "Audit";
                      nl_quantity := 1;
                      nl_unitPrice := 50;
                      nl_taxRate := Some 20%Q |} ] |}.

Definition sampleStore : TokenStore :=
  {| stored_token := Some "jwt"%string;
     stored_refreshToken := Some "refresh"%string;
     stored_role := Some "Manager"%string;
     stored_userId := Some "u1"%string;
     stored_company := Some "Atlas"%string |}.

(** A page of three records out of ten, three per page. *)
Definition smallPage : ListData :=
  {| ld_invoices := [sampleInvoice 1; sampleInvoice 2; sampleInvoice 3];
     pagination := {| page := 1; pageSize := 3; totalItems := 10; totalPages := JsInt 4 |} |}.

Definition smallState : AppState :=
  {| token := Some "jwt"%string;
     invoices := ld_invoices smallPage;
     invoiceListData := Some smallPage;
     tokenManager := sampleStore |}.

(** Ten records, five per page, the first page loaded. *)
Definition fullPage : ListData :=
  {| ld_invoices := map sampleInvoice [1; 2; 3; 4; 5];
     pagination := {| page := 1; pageSize := 5; totalItems := 10; totalPages := JsInt 2 |} |}.

Definition fullState : AppState :=
  {| token := Some "jwt"%string;
     invoices := ld_invoices fullPage;
     invoiceListData := Some fullPage;
     tokenManager := sampleStore |}.

Definition bare (st : Z) : Response :=
  {| resp_status := st;
     resp_statusText := "";
     resp_error := None;
     resp_blank := true;
     resp_invoice := None;
     resp_list := None |}.

Definition always (st : Z) : Transport := fun _ _ => Responded (bare st).

(** The deletion of record 2 is refused; every other call succeeds. *)
Definition refuseSecond : Transport :=
  fun _ req =>
    match req with
    | ReqDelete 2 => Responded (bare 500)
    | _ => Responded (bare 204)
    end.

Definition fixedEnv (t : Z) : Env :=
  {| clock := fun _ => t; random := fun _ => (1 # 2)%Q; isoDate := "2025-02-01T10:00:00.000Z" |}.

(** A cache that already holds a record whose identifier is the clock
    reading 1700000000000. *)
Definition clashState : AppState :=
  {| token := Some "jwt"%string;
     invoices := [sampleInvoice 1700000000000];
     invoiceListData := None;
     tokenManager := sampleStore |}.

End Samples.

(** ** invoice.permissions.ts: status display *)

Module StatusDisplay.

Import Permissions.

Record StatusDisplayInfo : Type := {
  key : string;
  color : string;
  mutable : bool
}.

Definition getStatusDisplayInfo (status : InvoiceStatus) : StatusDisplayInfo :=
  if status =? DRAFT then {| key := "draft"; color := "gray"; mutable := true |}
  else if status =? READY then {| key := "ready"; color := "blue"; mutable := true |}
  else if status =? AWAITING_CLEARANCE then
    {| key := "awaitingClearance"; color := "yellow"; mutable := false |}
  else if status =? VALIDATED then
    {| key := "validated"; color := "green"; mutable := false |}
  else if status =? REJECTED then {| key := "rejected"; color := "red"; mutable := true |}
  else {| key := "unknown"; color := "gray"; mutable := false |}.

End StatusDisplay.

(** ** App.tsx: list fetch and submission to the tax authority *)

Module AppFlows.

Import App.

(** [fetchInvoices], as a function of the answer to its list request.  The
    query string it builds from the filters, the sort order and the page
    only reaches the server; what the handler does to the state depends on
    the answer alone.  A failure ends in a toast. *)
Definition fetchInvoices (answer : FetchResult) (st : AppState) : AppState :=
  match answer with
  | NetworkError => st
  | Responded response =>
      if resp_status response =? 401 then
        setToken None (tokenManager_clearAuthData st)
      else if negb (ok response) then st
      else
        match resp_list response with
        | Some data =>
            setInvoices (fun _ => ld_invoices data)
              (setInvoiceListData (fun _ => Some data) st)
        | None => st
        end
  end.

(** The identifiers of the page in order, with its pagination. *)
Definition pageShape (c : option ListData) : option (list Z * Pagination) :=
  option_map (fun d => (map id (ld_invoices d), pagination d)) c.

(** The body of a successful submission: [dgiSubmissionId] is the only
    field the handlers read. *)
Record SubmitResult : Type := {
  res_dgiSubmissionId : option string
}.

(** What [JSON.parse] returns on the body: the value [null], or a value
    on which the field can be read. *)
Inductive SubmitBody : Type :=
| BodyNull
| BodyValue (result : SubmitResult).

(** The answer to a submission, through the accessors the handlers use:
    the status, whether the text is blank after [trim], and the parsed body
    ([None] when [JSON.parse] throws). *)
Record SubmitResponse : Type := {
  sub_status : Z;
  sub_blank : bool;
  sub_result : option SubmitBody
}.

Definition sub_ok (r : SubmitResponse) : bool :=
  (200 <=? sub_status r) && (sub_status r <=? 299).

Inductive SubmitFetch : Type :=
| SubmitNetworkError
| SubmitResponded (r : SubmitResponse).

(** The answer to the [k]-th submission request of one invocation, for the
    invoice [i]. *)
Definition SubmitTransport : Type := nat -> Z -> SubmitFetch.

(** A truthy string. *)
Definition truthy_str (a : option string) : option string :=
  match a with
  | Some s => if String.eqb s EmptyString then None else Some s
  | None => None
  end.

(** What the success path reads from the answer: the submission
    identifier, when the body is not blank, parses to something other than
    [null] and carries one. *)
Definition submissionIdOf (r : SubmitResponse) : option string :=
  if sub_blank r then None
  else
    match sub_result r with
    | Some (BodyValue result) => truthy_str (res_dgiSubmissionId result)
    | Some BodyNull => None
    | None => None
    end.

(** [handleSubmitInvoice]: the final state and the invoices for which a
    submission request was issued.  Every error is caught and shown as a
    toast. *)
Definition handleSubmitInvoice (net : SubmitTransport) (i : Z) (st : AppState)
  : AppState * list Z :=
  match find (fun inv => id inv =? i) (invoices st) with
  | None => (st, [])
  | Some originalInvoice =>
      let st1 := optimisticallyUpdateInvoiceStatus i 2 None None st in
      match net 0%nat i with
      | SubmitNetworkError => (st1, [i])
      | SubmitResponded response =>
          if sub_status response =? 401 then
            (optimisticallyUpdateInvoice originalInvoice
               (setToken None (tokenManager_clearAuthData st1)), [i])
          else if negb (sub_ok response) then
            (optimisticallyUpdateInvoice originalInvoice st1, [i])
          else
            match submissionIdOf response with
            | Some dgi => (optimisticallyUpdateInvoiceStatus i 2 (Some dgi) None st1, [i])
            | None => (st1, [i])
            end
      end
  end.

(** *** handleBulkSubmit *)

Fixpoint submitAnswers (net : SubmitTransport) (k : nat) (ids : list Z) : list SubmitFetch :=
  match ids with
  | [] => []
  | i :: rest => net k i :: submitAnswers net (S k) rest
  end.

Definition submitUnauthenticated (a : SubmitFetch) : bool :=
  match a with
  | SubmitNetworkError => false
  | SubmitResponded response => sub_status response =? 401
  end.

Definition submitRejects (a : SubmitFetch) : bool :=
  match a with
  | SubmitNetworkError => true
  | SubmitResponded response => (sub_status response =? 401) || negb (sub_ok response)
  end.

(** What the per-id callback returns when it does not throw. *)
Definition submitResultOf (a : SubmitFetch) : option string :=
  match a with
  | SubmitNetworkError => None
  | SubmitResponded response => submissionIdOf response
  end.

(** Whether the per-id callback returns [null]: a body that is not blank
    and parses to [null].  (A blank or unparseable body makes it return an
    empty object.) *)
Definition returnsNull (a : SubmitFetch) : bool :=
  match a with
  | SubmitNetworkError => false
  | SubmitResponded response =>
      negb (sub_blank response)
      && match sub_result response with
         | Some BodyNull => true
         | _ => false
         end
  end.

(** [results.forEach ((result, index) => ...)]: the identifiers returned by
    the server are written into the records, in the order of [ids].  Reading
    the field of a [null] result throws; the flag says whether that
    happened, the state being the one reached until then. *)
Fixpoint applySubmissionIds (ids : list Z) (answers : list SubmitFetch) (st : AppState)
  : AppState * bool :=
  match ids, answers with
  | i :: ids', a :: answers' =>
      if returnsNull a then (st, true)
      else
        applySubmissionIds ids' answers'
          (match submitResultOf a with
           | Some dgi => optimisticallyUpdateInvoiceStatus i 2 (Some dgi) None st
           | None => st
           end)
  | _, _ => (st, false)
  end.

Definition handleBulkSubmit (net : SubmitTransport) (ids : list Z) (st : AppState)
  : AppState :=
  let originalInvoices := filter (fun inv => includes ids (id inv)) (invoices st) in
  let st1 := fold_left (fun s i => optimisticallyUpdateInvoiceStatus i 2 None None s) ids st in
  let answers := submitAnswers net 0 ids in
  let st2 := if existsb submitUnauthenticated answers
             then setToken None (tokenManager_clearAuthData st1)
             else st1 in
  let rollBack := fold_left (fun s inv => optimisticallyUpdateInvoice inv s) originalInvoices in
  if existsb submitRejects answers then rollBack st2
  else
    let (st3, threw) := applySubmissionIds ids answers st2 in
    if threw then rollBack st3 else st3.

(** What the optimistic pass of a bulk submit does to one record. *)
Definition markBatch (ids : list Z) (inv : Invoice) : Invoice :=
  if includes ids (id inv) then withStatus 2 None None inv else inv.

(** What the rollback of a bulk submit does to one record: the snapshots
    are put back one after the other, each on the records with its
    identifier. *)
Fixpoint putBack (originals : list Invoice) (inv : Invoice) : Invoice :=
  match originals with
  | [] => inv
  | o :: rest => putBack rest (if id inv =? id o then o else inv)
  end.

End AppFlows.

(** ** QuoteForm: removing a line *)

Module QuoteFormLines.

Import QuoteForm.

(** [prev.filter ((_, i) => i !== index)]. *)
Fixpoint dropAt (index : nat) (lines : list NewLine) : list NewLine :=
  match lines with
  | [] => []
  | ln :: rest =>
      match index with
      | O => rest
      | S k => ln :: dropAt k rest
      end
  end.

(** [removeLine]: the last remaining line is never removed. *)
Definition removeLine (index : nat) (lines : list NewLine) : list NewLine :=
  if (List.length lines <=? 1)%nat then lines else dropAt index lines.

End QuoteFormLines.

(** ** More sample data *)

Module MoreSamples.

Import App.
Import AppFlows.
Import Samples.

(** A 200 answer whose body parses to the given invoice. *)
Definition withInvoice (inv : Invoice) : Response :=
  {| resp_status := 200;
     resp_statusText := "OK";
     resp_error := None;
     resp_blank := false;
     resp_invoice := Some inv;
     resp_list := None |}.

(** A 200 answer whose body parses to the given page. *)
Definition withPage (d : ListData) : Response :=
  {| resp_status := 200;
     resp_statusText := "OK";
     resp_error := None;
     resp_blank := false;
     resp_invoice := None;
     resp_list := Some d |}.

Definition answering (r : Response) : Transport := fun _ _ => Responded r.

Definition offline : Transport := fun _ _ => NetworkError.

(** The second page of [fullPage]'s listing shifted up by one record: what
    the server returns for page 1 once record 3 is gone. *)
Definition backfilledPage : ListData :=
  {| ld_invoices := map sampleInvoice [1; 2; 4; 5; 6];
     pagination := {| page := 1; pageSize := 5; totalItems := 9; totalPages := JsInt 2 |} |}.

Definition submitted (st : Z) (dgi : option string) : SubmitResponse :=
  {| sub_status := st;
     sub_blank := false;
     sub_result := Some (BodyValue {| res_dgiSubmissionId := dgi |}) |}.

Definition submitAlways (r : SubmitResponse) : SubmitTransport :=
  fun _ _ => SubmitResponded r.

(** The submission of invoice 2 is refused; the others are accepted. *)
Definition submitRefuseSecond : SubmitTransport :=
  fun _ i =>
    if i =? 2 then SubmitResponded (submitted 500 None)
    else SubmitResponded (submitted 200 (Some "DGI-1"%string)).

(** Every submission is accepted; the body of the answer for invoice 2 is
    the JSON value [null]. *)
Definition submitNullSecond : SubmitTransport :=
  fun _ i =>
    if i =? 2
    then SubmitResponded {| sub_status := 200; sub_blank := false; sub_result := Some BodyNull |}
    else SubmitResponded (submitted 200 (Some "DGI-1"%string)).

End MoreSamples.

(** * Properties *)

Import Permissions.

(** ** The status transition policy *)

Section PolicyFacts.

Local Open Scope string_scope.

Lemma includes_In (l : list Z) (x : Z) : includes l x = true <-> In x l.
Proof.
  unfold includes. rewrite existsb_exists. split.
  - intros [y [Hy Heq]]. apply Z.eqb_eq in Heq. now subst.
  - intros H. exists x. split; [exact H | apply Z.eqb_refl].
Qed.

Lemma current_in_transitions (role : UserRole) (current : InvoiceStatus) :
  In current (getValidStatusTransitions role current).
Proof.
  unfold getValidStatusTransitions.
  destruct (String.eqb role "Clerk"); [now left |].
  repeat match goal with
         | |- context [Z.eqb ?a ?b] => destruct (Z.eqb_spec a b) as [->|_]
         end; simpl; auto.
Qed.

(** A role outside the three named ones falls into every [default]
    branch of the capability predicates. *)
Lemma unknown_role_capabilities (role : UserRole) (s : InvoiceStatus) :
  role <> "Admin" -> role <> "Manager" -> role <> "Clerk" ->
  canModifyInvoice role s = false /\
  canDeleteInvoice role s = false /\
  canSubmitInvoice role s = false /\
  canChangeInvoiceStatus role s = false.
Proof.
  intros HA HM HC.
  apply String.eqb_neq in HA, HM, HC.
  unfold canDeleteInvoice, canModifyInvoice, canSubmitInvoice, canChangeInvoiceStatus.
  rewrite HA, HM, HC. simpl. repeat split; reflexivity.
Qed.

(** The transition table only singles out the clerk: every other role
    string is given the table of a manager. *)
Lemma transitions_of_non_clerk (role : UserRole) (s : InvoiceStatus) :
  role <> "Clerk" ->
  getValidStatusTransitions role s = getValidStatusTransitions "Manager" s.
Proof.
  intros HC. apply String.eqb_neq in HC.
  unfold getValidStatusTransitions. rewrite HC. reflexivity.
Qed.

(** A draft invoice: a clerk may only keep it a draft, a manager may also
    mark it ready. *)
Example draft_transitions_by_role :
  getValidStatusTransitions "Clerk" DRAFT = [DRAFT] /\
  getValidStatusTransitions "Manager" DRAFT = [DRAFT; READY].
Proof. split; reflexivity. Qed.

End PolicyFacts.

(** C3, evaluated at the role ["Guest"] and a draft invoice: the capability
    predicates all answer [false], and status changes are refused, yet the
    transition table offers [READY] next to the current status and
    [canTransitionToStatus] accepts the move. *)
Theorem unknown_role_policy_at_guest :
  getInvoiceActionPermissions "Guest"%string DRAFT =
    {| canEdit := false;
       canDelete := false;
       canSubmit := false;
       canChangeStatus := false;
       canCheckDGIStatus := false;
       canViewRejectionReason := false;
       validStatusTransitions := [DRAFT; READY] |}
  /\ canTransitionToStatus "Guest"%string DRAFT READY = true.
Proof. split; reflexivity. Qed.

(** C7: for every role and current status the list of valid transitions
    contains the current status, and [canTransitionToStatus] holds exactly
    of the members of that list. *)
Theorem transitions_contain_current_and_decide_canTransition :
  forall (role : UserRole) (current target : InvoiceStatus),
    In current (getValidStatusTransitions role current) /\
    (canTransitionToStatus role current target = true <->
     In target (getValidStatusTransitions role current)).
Proof.
  intros role current target. split.
  - apply current_in_transitions.
  - unfold canTransitionToStatus. apply includes_In.
Qed.

(** C10: deleting is allowed exactly where modifying is, for every role
    and every status. *)
Theorem canDelete_eq_canModify :
  forall (role : UserRole) (s : InvoiceStatus),
    canDeleteInvoice role s = canModifyInvoice role s.
Proof. intros role s. reflexivity. Qed.

(** ** Pagination of the cached page *)

Import App.

Section PaginationFacts.

Lemma Math_ceil_div_is_ceiling (n size : Z) :
  0 < size ->
  exists c, Math_ceil_div n size = JsInt c /\ isCeiling n size c.
Proof.
  intros Hpos. unfold Math_ceil_div, isCeiling.
  destruct (Z.eqb_spec size 0) as [H0|_]; [lia |].
  exists (- (- n / size)). split; [reflexivity |].
  pose proof (Z.div_mod (- n) size ltac:(lia)) as Hdm.
  pose proof (Z.mod_pos_bound (- n) size Hpos) as Hb.
  nia.
Qed.

Lemma isCeiling_unique (n size c c' : Z) :
  0 < size -> isCeiling n size c -> isCeiling n size c' -> c = c'.
Proof. unfold isCeiling. intros Hpos H1 H2. nia. Qed.

Lemma withTotal_consistent (n : Z) (p : Pagination) :
  paginationConsistent (withTotal n p).
Proof. reflexivity. Qed.

Lemma applyOp_consistent (op : CacheOp) (prev : option ListData) :
  cacheConsistent (applyOp op prev).
Proof.
  destruct op, prev as [d|]; simpl; try exact I; apply withTotal_consistent.
Qed.

(** On a page with a positive page size a consistent pagination holds the
    mathematical ceiling of [totalItems / pageSize]. *)
Lemma consistent_is_ceiling (p : Pagination) :
  0 < pageSize p ->
  paginationConsistent p ->
  exists c, totalPages p = JsInt c /\ isCeiling (totalItems p) (pageSize p) c.
Proof.
  unfold paginationConsistent. intros Hpos ->.
  now apply Math_ceil_div_is_ceiling.
Qed.

(** The mutations keep a loaded page loaded, with its page number and
    page size. *)
Lemma applyOp_keeps_page (op : CacheOp) (d : ListData) :
  exists d', applyOp op (Some d) = Some d'
             /\ page (pagination d') = page (pagination d)
             /\ pageSize (pagination d') = pageSize (pagination d).
Proof. destruct op; simpl; eexists; repeat split. Qed.

End PaginationFacts.

(** C1: whatever the cache holds and whatever sequence of add-to-list,
    single-delete and bulk-delete mutations is applied, the cache reached
    after each of them has [totalPages] equal to the ceiling of
    [totalItems / pageSize] as the code computes it. *)
Theorem totalPages_consistent_after_each_mutation :
  forall (ops : list CacheOp) (prev : option ListData),
    Forall cacheConsistent (cacheTrace ops prev).
Proof.
  induction ops as [|op rest IH]; intros prev; simpl.
  - constructor.
  - constructor.
    + apply applyOp_consistent.
    + apply IH.
Qed.

(** ** The optimistic handlers *)

Section ListFacts.

Context {A : Type}.

Lemma filter_all (f : A -> bool) (l : list A) :
  (forall x, In x l -> f x = true) -> filter f l = l.
Proof.
  induction l as [|a l IH]; intros H; simpl; [reflexivity |].
  rewrite (H a (or_introl eq_refl)). f_equal.
  apply IH. intros x Hx. apply H. now right.
Qed.

Lemma filter_twice (f g : A -> bool) (l : list A) :
  filter f (filter g l) = filter (fun x => g x && f x) l.
Proof.
  induction l as [|a l IH]; simpl; [reflexivity |].
  destruct (g a); simpl; [destruct (f a) |]; now rewrite IH.
Qed.

Lemma filter_split_perm (f : A -> bool) (l : list A) :
  Permutation (filter f l ++ filter (fun x => negb (f x)) l) l.
Proof.
  induction l as [|a l IH]; simpl; [constructor |].
  destruct (f a); simpl.
  - now constructor.
  - symmetry. apply Permutation_cons_app. now symmetry.
Qed.

End ListFacts.

Section HandlerFacts.

Lemma includes_cons (i : Z) (ids : list Z) (x : Z) :
  includes (i :: ids) x = (x =? i) || includes ids x.
Proof. reflexivity. Qed.

(** [ids.forEach (id => optimisticallyRemoveInvoice (id))] filters the
    legacy array once per id. *)
Lemma forEach_remove (ids : list Z) (st : AppState) :
  fold_left (fun s i => optimisticallyRemoveInvoice i s) ids st =
  setInvoices (filter (fun inv => negb (includes ids (id inv)))) st.
Proof.
  revert st. induction ids as [|i ids IH]; intros st; simpl.
  - destruct st as [t l d m]. unfold setInvoices. simpl. f_equal.
    symmetry. now apply filter_all.
  - rewrite IH. unfold optimisticallyRemoveInvoice, setInvoices. simpl. f_equal.
    rewrite filter_twice. apply filter_ext. intros inv.
    unfold includes. simpl. now rewrite negb_orb.
Qed.

(** [originalInvoices.forEach (invoice => optimisticallyAddInvoice (invoice))]
    puts the records back at the front, last one first. *)
Lemma forEach_add (l : list Invoice) (st : AppState) :
  fold_left (fun s inv => optimisticallyAddInvoice inv s) l st =
  setInvoices (fun prev => rev l ++ prev) st.
Proof.
  revert st. induction l as [|a l IH]; intros st; simpl.
  - now destruct st.
  - rewrite IH. unfold optimisticallyAddInvoice, setInvoices. simpl. f_equal.
    now rewrite <- app_assoc.
Qed.

Lemma deleteAnswers_rejects (net : Transport) (ids : list Z) (k0 k : nat) (i : Z) :
  nth_error ids k = Some i ->
  rejects (net (k0 + k)%nat (ReqDelete i)) = true ->
  existsb rejects (deleteAnswers net k0 ids) = true.
Proof.
  revert k0 k. induction ids as [|j ids IH]; intros k0 k Hnth Hrej.
  - now destruct k.
  - simpl. destruct k as [|k]; simpl in Hnth.
    + injection Hnth as ->. rewrite Nat.add_0_r in Hrej. now rewrite Hrej.
    + apply orb_true_iff. right. apply (IH (S k0) k Hnth).
      now rewrite Nat.add_succ_comm.
Qed.

Lemma deleteAnswers_unauthenticated (net : Transport) (ids : list Z) (k0 k : nat) (i : Z) :
  nth_error ids k = Some i ->
  unauthenticated (net (k0 + k)%nat (ReqDelete i)) = true ->
  existsb unauthenticated (deleteAnswers net k0 ids) = true.
Proof.
  revert k0 k. induction ids as [|j ids IH]; intros k0 k Hnth Hun.
  - now destruct k.
  - simpl. destruct k as [|k]; simpl in Hnth.
    + injection Hnth as ->. rewrite Nat.add_0_r in Hun. now rewrite Hun.
    + apply orb_true_iff. right. apply (IH (S k0) k Hnth).
      now rewrite Nat.add_succ_comm.
Qed.

(** The state [handleBulkDelete] ends in when some callback throws. *)
Lemma handleBulkDelete_rollback (net : Transport) (ids : list Z) (st : AppState) :
  existsb rejects (deleteAnswers net 0 ids) = true ->
  invoiceListData (final (handleBulkDelete net ids st)) = invoiceListData st /\
  invoices (final (handleBulkDelete net ids st)) =
    rev (filter (fun inv => includes ids (id inv)) (invoices st))
    ++ filter (fun inv => negb (includes ids (id inv))) (invoices st).
Proof.
  intros Hrej. unfold handleBulkDelete. rewrite Hrej. simpl.
  rewrite forEach_add, forEach_remove. split; [reflexivity |].
  destruct (invoiceListData st), (existsb unauthenticated (deleteAnswers net 0 ids));
    reflexivity.
Qed.

Lemma replace_keeps_ids (x : Z) (u : Invoice) (l : list Invoice) :
  id u = x ->
  map id (map (fun inv => if id inv =? x then u else inv) l) = map id l.
Proof.
  intros Hu. induction l as [|a l IH]; simpl; [reflexivity |].
  rewrite IH. destruct (Z.eqb_spec (id a) x) as [->|_]; [now rewrite Hu | reflexivity].
Qed.

Lemma find_after_replace (o : Invoice) (l : list Invoice) :
  In (id o) (map id l) ->
  find (fun inv => id inv =? id o)
       (map (fun inv => if id inv =? id o then o else inv) l) = Some o.
Proof.
  induction l as [|a l IH]; simpl; [tauto |].
  intros [Ha | Hl].
  - rewrite Ha. now rewrite !Z.eqb_refl.
  - destruct (Z.eqb_spec (id a) (id o)) as [_|Hne].
    + now rewrite Z.eqb_refl.
    + apply Z.eqb_neq in Hne. rewrite Hne. now apply IH.
Qed.

Lemma find_id_spec (x : Z) (l : list Invoice) (o : Invoice) :
  find (fun inv => id inv =? x) l = Some o -> id o = x /\ In (id o) (map id l).
Proof.
  intros H. apply find_some in H. destruct H as [Hin Heq].
  apply Z.eqb_eq in Heq. split; [exact Heq |]. now apply in_map.
Qed.

(** When the identifiers of the array are unique, replacing a record by an
    edited copy and then by the original gives the array back. *)
Lemma replace_then_restore (o u : Invoice) (l : list Invoice) :
  id u = id o ->
  (forall inv, In inv l -> id inv = id o -> inv = o) ->
  map (fun inv => if id inv =? id o then o else inv)
      (map (fun inv => if id inv =? id u then u else inv) l) = l.
Proof.
  intros Hid Huniq. induction l as [|a l IH]; simpl; [reflexivity |].
  rewrite IH by (intros inv Hin; apply Huniq; now right). f_equal.
  rewrite Hid. destruct (Z.eqb_spec (id a) (id o)) as [Heq|Hne].
  - rewrite Hid, Z.eqb_refl. symmetry. apply Huniq; [now left | exact Heq].
  - apply Z.eqb_neq in Hne. now rewrite Hne.
Qed.

Lemma remove_absent (t : Z) (l : list Invoice) :
  (forall inv, In inv l -> id inv <> t) ->
  filter (fun inv => negb (id inv =? t)) l = l.
Proof.
  intros H. apply filter_all. intros inv Hin.
  apply negb_true_iff, Z.eqb_neq. now apply H.
Qed.

Lemma not_ok_401 (r : Response) : resp_status r = 401 -> ok r = false.
Proof. unfold ok. intros ->. reflexivity. Qed.

End HandlerFacts.

Import Samples.

(** C2: in a bulk delete, as soon as the call for one of the ids fails
    (network failure, 401 or any other non-2xx status) the page
    [invoiceListData], records and pagination, is the snapshot taken before
    the batch, and the legacy array holds again every record it held, those
    whose own call succeeded included. *)
Theorem bulk_delete_failure_restores_snapshot :
  forall (net : Transport) (ids : list Z) (st : AppState) (k : nat) (i : Z),
    nth_error ids k = Some i ->
    rejects (net k (ReqDelete i)) = true ->
    invoiceListData (final (handleBulkDelete net ids st)) = invoiceListData st /\
    Permutation (invoices (final (handleBulkDelete net ids st))) (invoices st).
Proof.
  intros net ids st k i Hnth Hrej.
  assert (Hex : existsb rejects (deleteAnswers net 0 ids) = true)
    by (apply (deleteAnswers_rejects net ids 0 k i); assumption).
  destruct (handleBulkDelete_rollback net ids st Hex) as [Hdata Hinv].
  split; [exact Hdata |].
  rewrite Hinv.
  transitivity (filter (fun inv => includes ids (id inv)) (invoices st)
                ++ filter (fun inv => negb (includes ids (id inv))) (invoices st)).
  - apply Permutation_app_tail. symmetry. apply Permutation_rev.
  - apply filter_split_perm.
Qed.

Lemma bulk_delete_failure_restores_snapshot_witness :
  nth_error [1; 2; 3] 1 = Some 2 /\
  rejects (refuseSecond 1%nat (ReqDelete 2)) = true /\
  invoiceListData (final (handleBulkDelete refuseSecond [1; 2; 3] smallState))
    = invoiceListData smallState /\
  Permutation (invoices (final (handleBulkDelete refuseSecond [1; 2; 3] smallState)))
              (invoices smallState).
Proof.
  split; [reflexivity |]. split; [reflexivity |].
  apply (bulk_delete_failure_restores_snapshot refuseSecond [1; 2; 3] smallState 1%nat 2);
    reflexivity.
Defined.

(** X21: A 401 among the answers also tears the session down. *)
Lemma bulk_delete_401_clears_session
  (net : Transport) (ids : list Z) (st : AppState) (k : nat) (i : Z) :
  nth_error ids k = Some i ->
  unauthenticated (net k (ReqDelete i)) = true ->
  token (final (handleBulkDelete net ids st)) = None /\
  tokenManager (final (handleBulkDelete net ids st)) = clearAuthData (tokenManager st).
Proof.
  intros Hnth Hun.
  assert (Hex : existsb unauthenticated (deleteAnswers net 0 ids) = true)
    by (apply (deleteAnswers_unauthenticated net ids 0 k i); assumption).
  assert (Hrej : existsb rejects (deleteAnswers net 0 ids) = true).
  { apply (deleteAnswers_rejects net ids 0 k i); [assumption |].
    simpl in *. destruct (net k (ReqDelete i)); [discriminate |].
    simpl in *. now rewrite Hun. }
  unfold handleBulkDelete. rewrite Hrej, Hex. simpl.
  rewrite forEach_add, forEach_remove.
  destruct (invoiceListData st); split; reflexivity.
Qed.

(** C4, against the claim as stated: a cached record whose identifier is the
    clock reading used for the temporary record is swept away by the
    rollback of a refused create. *)
Lemma create_failure_clash_counterexample :
  always 500 0%nat (ReqCreate (sampleDraft None)) = Responded (bare 500) /\
  ok (bare 500) = false /\
  invoices (final (handleCreateInvoice (fixedEnv 1700000000000) "amal@example.com"
                     (always 500) (sampleDraft None) None clashState))
    <> invoices clashState.
Proof.
  split; [reflexivity |]. split; [reflexivity |].
  vm_compute. discriminate.
Qed.

(** C4, amended: when the create call is answered with a non-2xx status
    (401 included), no cached record carries the temporary identifier, and
    the error body names no cached record as [tempInvoiceId], the legacy
    array and the page with its pagination are those of before the create. *)
Theorem create_failure_restores_cache :
  forall (env : Env) (userEmail : string) (net : Transport) (newInvoice : NewInvoice)
         (customerName : option string) (st : AppState) (response : Response),
    net 0%nat (ReqCreate newInvoice) = Responded response ->
    ok response = false ->
    (forall inv, In inv (invoices st) ->
                 id inv <> id (tempInvoice env userEmail newInvoice customerName)) ->
    (forall k inv, thrown_tempInvoiceId (errorDataOf response) = Some k ->
                   In inv (invoices st) -> id inv <> k) ->
    invoices (final (handleCreateInvoice env userEmail net newInvoice customerName st))
      = invoices st /\
    invoiceListData (final (handleCreateInvoice env userEmail net newInvoice customerName st))
      = invoiceListData st.
Proof.
  intros env userEmail net newInvoice customerName st response Hnet Hok Hfresh Herr.
  unfold handleCreateInvoice. rewrite Hnet, Hok.
  assert (Hrm : filter (fun inv => negb (id inv =? id (tempInvoice env userEmail newInvoice customerName)))
                  (tempInvoice env userEmail newInvoice customerName :: invoices st)
                = invoices st).
  { simpl filter. rewrite Z.eqb_refl. simpl. now apply remove_absent. }
  destruct (resp_status response =? 401).
  - simpl. split; [exact Hrm | reflexivity].
  - cbn [negb].
    destruct (thrown_tempInvoiceId (errorDataOf response)) as [k|] eqn:Hk.
    + cbn [final optimisticallyRemoveInvoice optimisticallyAddInvoice setInvoices
             invoices invoiceListData].
      rewrite Hrm. split; [| reflexivity].
      apply remove_absent. intros inv Hin. now apply (Herr k inv).
    + cbn [final optimisticallyRemoveInvoice optimisticallyAddInvoice setInvoices
             invoices invoiceListData].
      split; [exact Hrm | reflexivity].
Qed.

Lemma create_failure_restores_cache_witness :
  always 500 0%nat (ReqCreate (sampleDraft None)) = Responded (bare 500) /\
  ok (bare 500) = false /\
  (forall inv, In inv (invoices smallState) ->
               id inv <> id (tempInvoice (fixedEnv 1700000000000) "amal@example.com"
                               (sampleDraft None) None)) /\
  (forall k inv, thrown_tempInvoiceId (errorDataOf (bare 500)) = Some k ->
                 In inv (invoices smallState) -> id inv <> k) /\
  invoices (final (handleCreateInvoice (fixedEnv 1700000000000) "amal@example.com"
                     (always 500) (sampleDraft None) None smallState))
    = invoices smallState /\
  invoiceListData (final (handleCreateInvoice (fixedEnv 1700000000000) "amal@example.com"
                            (always 500) (sampleDraft None) None smallState))
    = invoiceListData smallState.
Proof.
  assert (Hfresh : forall inv, In inv (invoices smallState) ->
                     id inv <> id (tempInvoice (fixedEnv 1700000000000) "amal@example.com"
                                     (sampleDraft None) None)).
  { intros inv Hin. simpl in Hin.
    destruct Hin as [<- | [<- | [<- | []]]]; simpl; lia. }
  assert (Herr : forall k inv, thrown_tempInvoiceId (errorDataOf (bare 500)) = Some k ->
                   In inv (invoices smallState) -> id inv <> k).
  { intros k inv Hk. simpl in Hk. discriminate. }
  split; [reflexivity |]. split; [reflexivity |].
  split; [exact Hfresh |]. split; [exact Herr |].
  apply (create_failure_restores_cache (fixedEnv 1700000000000) "amal@example.com"
           (always 500) (sampleDraft None) None smallState (bare 500));
    [reflexivity | reflexivity | exact Hfresh | exact Herr].
Defined.

(** When [fetch] itself rejects (no response at all) the [catch] block
    finds no [tempInvoiceId] on the error and rethrows: the temporary record
    stays at the front of the array. *)
Lemma create_network_error_keeps_temporary
  (env : Env) (userEmail : string) (net : Transport) (newInvoice : NewInvoice)
  (customerName : option string) (st : AppState) :
  net 0%nat (ReqCreate newInvoice) = NetworkError ->
  invoices (final (handleCreateInvoice env userEmail net newInvoice customerName st))
    = tempInvoice env userEmail newInvoice customerName :: invoices st.
Proof. intros Hnet. unfold handleCreateInvoice. now rewrite Hnet. Qed.

(** C5: an update of a cached record with identifier [x] (a non-zero
    identifier: the handler refuses 0 before calling the transport) that is
    answered with 401 leaves the record found at [x] equal to the snapshot
    taken before the update, clears the token and empties the stored
    authentication data. *)
Theorem update_401_restores_record_and_clears_session :
  forall (env : Env) (net : Transport) (invoice : NewInvoice)
         (customerName : option string) (st : AppState)
         (x : Z) (originalInvoice : Invoice) (response : Response),
    ni_id invoice = Some x ->
    x <> 0 ->
    find (fun inv => id inv =? x) (invoices st) = Some originalInvoice ->
    net 0%nat (ReqUpdate x invoice) = Responded response ->
    resp_status response = 401 ->
    let st' := final (handleUpdateInvoice env net invoice customerName st) in
    find (fun inv => id inv =? x) (invoices st') = Some originalInvoice /\
    token st' = None /\
    tokenManager st' = {| stored_token := None;
                          stored_refreshToken := None;
                          stored_role := None;
                          stored_userId := None;
                          stored_company := None |}.
Proof.
  intros env net invoice customerName st x originalInvoice response
         Hid Hx Hfind Hnet H401 st'.
  subst st'. unfold handleUpdateInvoice.
  rewrite Hid. unfold truthy_id.
  apply Z.eqb_neq in Hx. rewrite Hx, Hfind, Hnet, H401. simpl.
  destruct (find_id_spec x (invoices st) originalInvoice Hfind) as [Hox Hin].
  split; [| split; reflexivity].
  rewrite <- Hox. apply find_after_replace.
  now rewrite replace_keeps_ids.
Qed.

Lemma update_401_restores_record_and_clears_session_witness :
  ni_id (sampleDraft (Some 2)) = Some 2 /\
  2 <> 0 /\
  find (fun inv => id inv =? 2) (invoices smallState) = Some (sampleInvoice 2) /\
  always 401 0%nat (ReqUpdate 2 (sampleDraft (Some 2))) = Responded (bare 401) /\
  resp_status (bare 401) = 401 /\
  let st' := final (handleUpdateInvoice (fixedEnv 1700000000000) (always 401)
                      (sampleDraft (Some 2)) None smallState) in
  find (fun inv => id inv =? 2) (invoices st') = Some (sampleInvoice 2) /\
  token st' = None /\
  tokenManager st' = {| stored_token := None;
                        stored_refreshToken := None;
                        stored_role := None;
                        stored_userId := None;
                        stored_company := None |}.
Proof.
  split; [reflexivity |]. split; [lia |]. split; [reflexivity |].
  split; [reflexivity |]. split; [reflexivity |].
  apply (update_401_restores_record_and_clears_session
           (fixedEnv 1700000000000) (always 401) (sampleDraft (Some 2)) None
           smallState 2 (sampleInvoice 2) (bare 401));
    try reflexivity; lia.
Defined.

(** With unique identifiers the whole legacy array is the one of before
    the update, and the page is never touched on this path. *)
Lemma update_401_restores_array
  (env : Env) (net : Transport) (invoice : NewInvoice) (customerName : option string)
  (st : AppState) (x : Z) (originalInvoice : Invoice) (response : Response) :
  ni_id invoice = Some x ->
  x <> 0 ->
  find (fun inv => id inv =? x) (invoices st) = Some originalInvoice ->
  (forall inv, In inv (invoices st) -> id inv = x -> inv = originalInvoice) ->
  net 0%nat (ReqUpdate x invoice) = Responded response ->
  resp_status response = 401 ->
  invoices (final (handleUpdateInvoice env net invoice customerName st)) = invoices st /\
  invoiceListData (final (handleUpdateInvoice env net invoice customerName st))
    = invoiceListData st.
Proof.
  intros Hid Hx Hfind Huniq Hnet H401.
  unfold handleUpdateInvoice. rewrite Hid. unfold truthy_id.
  apply Z.eqb_neq in Hx. rewrite Hx, Hfind, Hnet, H401. simpl.
  destruct (find_id_spec x (invoices st) originalInvoice Hfind) as [Hox _].
  split; [| reflexivity].
  apply (replace_then_restore originalInvoice
           (updatedInvoice env x originalInvoice invoice customerName)).
  - reflexivity.
  - intros inv Hin Heq. apply Huniq; [exact Hin | congruence].
Qed.

(** C6: when the record is deleted from a page that holds exactly
    [pageSize] records and whose page number is below [totalPages], and the
    [DELETE] call succeeds, the handler next fetches the list with the page
    number and page size the page had before the deletion. *)
Theorem delete_from_full_page_refreshes_same_page :
  forall (net : Transport) (i : Z) (st : AppState) (d : ListData)
         (originalInvoice : Invoice) (response : Response),
    find (fun inv => id inv =? i) (invoices st) = Some originalInvoice ->
    invoiceListData st = Some d ->
    Z.of_nat (List.length (ld_invoices d)) = pageSize (pagination d) ->
    js_lt (page (pagination d)) (totalPages (pagination d)) = true ->
    net 0%nat (ReqDelete i) = Responded response ->
    ok response = true ->
    issued (handleDeleteInvoice net i st) =
      [ReqDelete i; ReqList (page (pagination d)) (pageSize (pagination d))].
Proof.
  intros net i st d originalInvoice response Hfind Hdata Hlen Hlt Hnet Hok.
  unfold handleDeleteInvoice. rewrite Hfind, Hdata, Hnet, Hok, Hlt.
  apply Z.eqb_eq in Hlen. rewrite Hlen.
  assert (H401 : (resp_status response =? 401) = false).
  { apply Z.eqb_neq. intros H. apply not_ok_401 in H. congruence. }
  rewrite H401. reflexivity.
Qed.

Lemma delete_from_full_page_refreshes_same_page_witness :
  find (fun inv => id inv =? 3) (invoices fullState) = Some (sampleInvoice 3) /\
  invoiceListData fullState = Some fullPage /\
  Z.of_nat (List.length (ld_invoices fullPage)) = pageSize (pagination fullPage) /\
  js_lt (page (pagination fullPage)) (totalPages (pagination fullPage)) = true /\
  always 204 0%nat (ReqDelete 3) = Responded (bare 204) /\
  ok (bare 204) = true /\
  issued (handleDeleteInvoice (always 204) 3 fullState) = [ReqDelete 3; ReqList 1 5].
Proof.
  repeat (split; [reflexivity |]).
  apply (delete_from_full_page_refreshes_same_page (always 204) 3 fullState fullPage
           (sampleInvoice 3) (bare 204)); reflexivity.
Defined.

(** The example of the specification: ten records, five per page, page 1;
    deleting one leaves nine items on two pages and triggers the refresh. *)
Example delete_on_first_of_two_pages :
  let run := handleDeleteInvoice (always 204) 3 fullState in
  option_map pagination (invoiceListData (final run))
    = Some {| page := 1; pageSize := 5; totalItems := 9; totalPages := JsInt 2 |}
  /\ issued run = [ReqDelete 3; ReqList 1 5].
Proof. split; reflexivity. Qed.

(** C8, against the claim as stated: the temporary identifier is an
    integer, and it is the very integer a server may have assigned. *)
Lemma temporary_id_clash_counterexample :
  ~ (forall serverId : Z,
        id (tempInvoice (fixedEnv 1700000000000) "amal@example.com" (sampleDraft None) None)
        <> serverId).
Proof. intros H. apply (H 1700000000000). reflexivity. Qed.

(** C8, amended: the temporary identifier of an optimistic create is the
    reading of the millisecond clock at that moment; it equals a
    server-assigned identifier exactly when that identifier is this
    reading, and differs from every other one. *)
Theorem temporary_id_is_clock_reading :
  forall (env : Env) (userEmail : string) (newInvoice : NewInvoice)
         (customerName : option string) (serverId : Z),
    id (tempInvoice env userEmail newInvoice customerName) = serverId
    <-> serverId = clock env 0.
Proof.
  intros env userEmail newInvoice customerName serverId. simpl.
  split; intros H; now symmetry.
Qed.

(** ** Rounding to two decimals, on exact amounts *)

Import QuoteForm.

Section TotalsFacts.

Local Open Scope Q_scope.




End TotalsFacts.

(** * Further properties of the policy *)

Import StatusDisplay.

Section PolicyTables.

Local Open Scope string_scope.

(** Case analysis on a status against the five constants. *)
Ltac split_status s :=
  destruct (Z.eqb_spec s DRAFT) as [->|?];
  [| destruct (Z.eqb_spec s READY) as [->|?];
     [| destruct (Z.eqb_spec s AWAITING_CLEARANCE) as [->|?];
        [| destruct (Z.eqb_spec s VALIDATED) as [->|?];
           [| destruct (Z.eqb_spec s REJECTED) as [->|?]]]]].

Lemma status_eqb_false (s c : InvoiceStatus) : s <> c -> (s =? c)%Z = false.
Proof. apply Z.eqb_neq. Qed.

Lemma transitions_off_table (role : UserRole) (s : InvoiceStatus) :
  s <> DRAFT -> s <> READY -> s <> AWAITING_CLEARANCE -> s <> VALIDATED -> s <> REJECTED ->
  getValidStatusTransitions role s = [s].
Proof.
  intros H0 H1 H2 H3 H4. unfold getValidStatusTransitions.
  rewrite !status_eqb_false by assumption. now destruct (String.eqb role "Clerk").
Qed.

Lemma capabilities_off_table (role : UserRole) (s : InvoiceStatus) :
  s <> DRAFT -> s <> READY -> s <> AWAITING_CLEARANCE -> s <> VALIDATED -> s <> REJECTED ->
  getInvoiceActionPermissions role s =
    {| canEdit := false; canDelete := false; canSubmit := false; canChangeStatus := false;
       canCheckDGIStatus := false; canViewRejectionReason := false;
       validStatusTransitions := [s] |}.
Proof.
  intros H0 H1 H2 H3 H4. unfold getInvoiceActionPermissions.
  rewrite transitions_off_table by assumption.
  unfold canDeleteInvoice, canModifyInvoice, canSubmitInvoice, canChangeInvoiceStatus,
    canPerformDGIStatusCheck, canAccessRejectionReason.
  rewrite !status_eqb_false by assumption.
  destruct (String.eqb role "Clerk"), (String.eqb role "Manager"), (String.eqb role "Admin");
    reflexivity.
Qed.

(** An administrator and a manager are told apart nowhere in the policy. *)
Theorem admin_and_manager_share_every_permission :
  forall (s : InvoiceStatus) (operation : BulkOperation),
    getInvoiceActionPermissions "Admin" s = getInvoiceActionPermissions "Manager" s /\
    canSelectForBulkOperation "Admin" s operation
      = canSelectForBulkOperation "Manager" s operation /\
    canCreateInvoice "Admin" = canCreateInvoice "Manager".
Proof.
  intros s operation. repeat split.
Qed.

(** X1: Whatever a clerk may do on an invoice, a manager may do as well, and
    every status a clerk may move an invoice to is open to a manager. *)
Theorem clerk_permissions_within_manager :
  forall (s target : InvoiceStatus),
    (canModifyInvoice "Clerk" s = true <-> s = DRAFT) /\
    implb (canModifyInvoice "Clerk" s) (canModifyInvoice "Manager" s) = true /\
    implb (canDeleteInvoice "Clerk" s) (canDeleteInvoice "Manager" s) = true /\
    implb (canTransitionToStatus "Clerk" s target)
          (canTransitionToStatus "Manager" s target) = true /\
    canSubmitInvoice "Clerk" s = false /\
    canChangeInvoiceStatus "Clerk" s = false /\
    canPerformDGIStatusCheck "Clerk" s = false.
Proof.
  intros s target. split; [| split; [| split; [| split]]].
  - unfold canModifyInvoice. simpl. apply Z.eqb_eq.
  - unfold canModifyInvoice. simpl. split_status s; reflexivity.
  - unfold canDeleteInvoice, canModifyInvoice. simpl. split_status s; reflexivity.
  - unfold canTransitionToStatus, getValidStatusTransitions, includes. simpl.
    destruct (Z.eqb_spec target s) as [->|Hne]; [| reflexivity].
    simpl. split_status s; simpl; try reflexivity. now rewrite Z.eqb_refl.
  - repeat split.
Qed.

(** X2: An invoice awaiting clearance or validated is frozen for every role:
    it can be neither modified, deleted, submitted nor moved to another
    status. *)
Theorem cleared_statuses_are_frozen :
  forall (role : UserRole) (target : InvoiceStatus),
    (canModifyInvoice role AWAITING_CLEARANCE = false /\
     canDeleteInvoice role AWAITING_CLEARANCE = false /\
     canSubmitInvoice role AWAITING_CLEARANCE = false /\
     canChangeInvoiceStatus role AWAITING_CLEARANCE = false /\
     (canTransitionToStatus role AWAITING_CLEARANCE target = true
      <-> target = AWAITING_CLEARANCE)) /\
    (canModifyInvoice role VALIDATED = false /\
     canDeleteInvoice role VALIDATED = false /\
     canSubmitInvoice role VALIDATED = false /\
     canChangeInvoiceStatus role VALIDATED = false /\
     (canTransitionToStatus role VALIDATED target = true <-> target = VALIDATED)).
Proof.
  intros role target.
  unfold canDeleteInvoice, canModifyInvoice, canSubmitInvoice, canChangeInvoiceStatus,
    canTransitionToStatus, getValidStatusTransitions, includes.
  destruct (String.eqb role "Clerk"), (String.eqb role "Manager"), (String.eqb role "Admin");
    simpl; rewrite !orb_false_r; repeat split; try apply Z.eqb_eq; intros ->; reflexivity.
Qed.

(** X3: The only moves the transition table allows besides staying put are
    draft to ready, ready to draft and rejected to draft; none of them is
    open to a clerk. *)
Theorem manual_transitions_are_three :
  forall (role : UserRole) (current target : InvoiceStatus),
    canTransitionToStatus role current target = true ->
    target <> current ->
    role <> "Clerk" /\
    ((current = DRAFT /\ target = READY) \/
     (current = READY /\ target = DRAFT) \/
     (current = REJECTED /\ target = DRAFT)).
Proof.
  intros role current target Hcan Hne.
  unfold canTransitionToStatus in Hcan. apply includes_In in Hcan.
  unfold getValidStatusTransitions in Hcan.
  destruct (String.eqb_spec role "Clerk") as [->|Hrole].
  - simpl in Hcan. destruct Hcan as [H|[]]. now elim Hne.
  - split; [exact Hrole |].
    split_status current; simpl in Hcan;
      try (rewrite !status_eqb_false in Hcan by assumption; simpl in Hcan);
      intuition (try congruence).
Qed.

(** X4: For the three named roles the status picker and the capability agree:
    a role may change the status of an invoice exactly when the transition
    table offers it a status other than the current one. *)
Theorem canChangeStatus_iff_some_other_transition :
  forall (role : UserRole) (current : InvoiceStatus),
    canCreateInvoice role = true ->
    (canChangeInvoiceStatus role current = true <->
     exists target, target <> current /\ canTransitionToStatus role current target = true).
Proof.
  intros role current Hrole.
  unfold canCreateInvoice, includes_str in Hrole. simpl in Hrole.
  rewrite orb_false_r in Hrole.
  unfold canChangeInvoiceStatus, canTransitionToStatus, getValidStatusTransitions, includes.
  destruct (String.eqb role "Clerk") eqn:HC.
  - split; [discriminate |]. intros [target [Hne H]]. simpl in H.
    rewrite orb_false_r in H. apply Z.eqb_eq in H. contradiction.
  - assert (HMA : String.eqb role "Manager" || String.eqb role "Admin" = true).
    { rewrite orb_false_r in Hrole. rewrite orb_comm. exact Hrole. }
    rewrite HMA.
    split_status current; simpl.
    + split; [intros _; exists READY; split; [discriminate | reflexivity] | reflexivity].
    + split; [intros _; exists DRAFT; split; [discriminate | reflexivity] | reflexivity].
    + split; [discriminate |]. intros [target [Hne H]].
      rewrite orb_false_r in H. apply Z.eqb_eq in H. contradiction.
    + split; [discriminate |]. intros [target [Hne H]].
      rewrite orb_false_r in H. apply Z.eqb_eq in H. contradiction.
    + split; [intros _; exists DRAFT; split; [discriminate | reflexivity] | reflexivity].
    + split; [discriminate |]. intros [target [Hne H]].
      rewrite orb_false_r in H. apply Z.eqb_eq in H. contradiction.
Qed.

Lemma canChangeStatus_iff_some_other_transition_witness :
  canCreateInvoice "Manager" = true /\
  (canChangeInvoiceStatus "Manager" REJECTED = true <->
   exists target, target <> REJECTED /\ canTransitionToStatus "Manager" REJECTED target = true).
Proof.
  split; [reflexivity |].
  apply (canChangeStatus_iff_some_other_transition "Manager" REJECTED). reflexivity.
Defined.

(** X5: No capability is granted to a role that may not create invoices: the
    predicates fail closed on any other role string. *)
Theorem capabilities_need_a_named_role :
  forall (role : UserRole) (s : InvoiceStatus),
    canModifyInvoice role s || canDeleteInvoice role s || canSubmitInvoice role s
    || canChangeInvoiceStatus role s || canPerformDGIStatusCheck role s = true ->
    canCreateInvoice role = true.
Proof.
  intros role s.
  unfold canCreateInvoice, includes_str, canDeleteInvoice, canModifyInvoice,
    canSubmitInvoice, canChangeInvoiceStatus, canPerformDGIStatusCheck.
  simpl.
  destruct (String.eqb role "Clerk"), (String.eqb role "Manager"), (String.eqb role "Admin");
    simpl; auto.
Qed.

Lemma capabilities_need_a_named_role_witness :
  canModifyInvoice "Clerk" DRAFT || canDeleteInvoice "Clerk" DRAFT
  || canSubmitInvoice "Clerk" DRAFT || canChangeInvoiceStatus "Clerk" DRAFT
  || canPerformDGIStatusCheck "Clerk" DRAFT = true /\
  canCreateInvoice "Clerk" = true.
Proof.
  split; [reflexivity |].
  apply (capabilities_need_a_named_role "Clerk" DRAFT). reflexivity.
Defined.

(** X6: A status number outside the five known ones falls into every default
    branch: no capability for any role, and the only transition is the
    no-op. *)
Theorem unknown_status_has_no_capability :
  forall (role : UserRole) (s : InvoiceStatus),
    (s < 0 \/ 4 < s)%Z ->
    getInvoiceActionPermissions role s =
      {| canEdit := false; canDelete := false; canSubmit := false; canChangeStatus := false;
         canCheckDGIStatus := false; canViewRejectionReason := false;
         validStatusTransitions := [s] |}
    /\ mutable (getStatusDisplayInfo s) = false.
Proof.
  intros role s Hs.
  assert (H0 : s <> DRAFT) by (unfold DRAFT; lia).
  assert (H1 : s <> READY) by (unfold READY; lia).
  assert (H2 : s <> AWAITING_CLEARANCE) by (unfold AWAITING_CLEARANCE; lia).
  assert (H3 : s <> VALIDATED) by (unfold VALIDATED; lia).
  assert (H4 : s <> REJECTED) by (unfold REJECTED; lia).
  split; [now apply capabilities_off_table |].
  unfold getStatusDisplayInfo. now rewrite !status_eqb_false by assumption.
Qed.

Lemma unknown_status_has_no_capability_witness :
  (7 < 0 \/ 4 < 7)%Z /\
  getInvoiceActionPermissions "Admin" 7 =
    {| canEdit := false; canDelete := false; canSubmit := false; canChangeStatus := false;
       canCheckDGIStatus := false; canViewRejectionReason := false;
       validStatusTransitions := [7%Z] |}
  /\ mutable (getStatusDisplayInfo 7) = false.
Proof.
  split; [right; lia |].
  apply (unknown_status_has_no_capability "Admin" 7). right. lia.
Defined.

(** X7: The badge marks a status as mutable exactly when some role may modify
    an invoice in that status. *)
Theorem display_mutable_iff_some_role_may_modify :
  forall s : InvoiceStatus,
    mutable (getStatusDisplayInfo s) = true <-> exists role, canModifyInvoice role s = true.
Proof.
  intros s. unfold getStatusDisplayInfo. split.
  - intros H. exists "Admin". unfold canModifyInvoice. simpl. revert H.
    split_status s; simpl; intros H; try reflexivity; discriminate.
  - intros [role H]. unfold canModifyInvoice in H. revert H.
    split_status s; simpl; intros H; try reflexivity;
      destruct (String.eqb role "Clerk"), (String.eqb role "Manager"),
        (String.eqb role "Admin"); simpl in H; discriminate.
Qed.

Lemma manual_transitions_are_three_witness :
  canTransitionToStatus "Admin" REJECTED DRAFT = true /\
  DRAFT <> REJECTED /\
  "Admin" <> "Clerk" /\
  ((REJECTED = DRAFT /\ DRAFT = READY) \/
   (REJECTED = READY /\ DRAFT = DRAFT) \/
   (REJECTED = REJECTED /\ DRAFT = DRAFT)).
Proof.
  split; [reflexivity |]. split; [discriminate |].
  apply (manual_transitions_are_three "Admin" REJECTED DRAFT); [reflexivity | discriminate].
Defined.

End PolicyTables.

(** * Further properties of the handlers *)

Import AppFlows.
Import MoreSamples.

Section UpdateFacts.

Lemma replace_keeps_pageShape (u : Invoice) (st : AppState) :
  pageShape (invoiceListData (silentlyUpdateInvoiceInList u st))
  = pageShape (invoiceListData st).
Proof.
  unfold silentlyUpdateInvoiceInList, pageShape. simpl.
  destruct (invoiceListData st) as [d|]; simpl; [| reflexivity].
  now rewrite replace_keeps_ids.
Qed.

Lemma replace_keeps_array_ids (u : Invoice) (st : AppState) :
  map id (invoices (optimisticallyUpdateInvoice u st)) = map id (invoices st).
Proof. unfold optimisticallyUpdateInvoice. simpl. now apply replace_keeps_ids. Qed.

(** X8: Whatever the transport answers, [handleUpdateInvoice] neither adds,
    removes nor reorders a record, in the array or in the page, and never
    touches the pagination. *)
Theorem update_keeps_ids_and_pagination :
  forall (env : Env) (net : Transport) (invoice : NewInvoice)
         (customerName : option string) (st : AppState),
    map id (invoices (final (handleUpdateInvoice env net invoice customerName st)))
      = map id (invoices st) /\
    pageShape (invoiceListData (final (handleUpdateInvoice env net invoice customerName st)))
      = pageShape (invoiceListData st).
Proof.
  intros env net invoice customerName st.
  unfold handleUpdateInvoice.
  destruct (truthy_id (ni_id invoice)) as [x|]; [| now split].
  destruct (find (fun inv => id inv =? x) (invoices st)) as [o|]; [| now split].
  destruct (net 0%nat (ReqUpdate x invoice)) as [|r]; cbn [final].
  - split; [apply replace_keeps_array_ids | reflexivity].
  - destruct (resp_status r =? 401); [| destruct (negb (ok r)); [| destruct (resp_blank r);
      [| destruct (resp_invoice r) as [srv|]]]]; cbn [final].
    + split; [| reflexivity].
      rewrite replace_keeps_array_ids. cbn [invoices setToken tokenManager_clearAuthData].
      apply replace_keeps_array_ids.
    + split; [| reflexivity]. now rewrite !replace_keeps_array_ids.
    + rewrite replace_keeps_pageShape. split; [| reflexivity].
      apply replace_keeps_array_ids.
    + rewrite replace_keeps_pageShape. split; [| reflexivity].
      cbn [silentlyUpdateInvoiceInList setInvoiceListData invoices].
      now rewrite !replace_keeps_array_ids.
    + rewrite replace_keeps_pageShape. split; [| reflexivity].
      apply replace_keeps_array_ids.
Qed.

(** X9: A refused update (any non-2xx status other than 401) puts the snapshot
    back at the identifier, leaves the session and the page alone, and
    rejects with the error body of the response. *)
Theorem update_failure_restores_record_and_rethrows :
  forall (env : Env) (net : Transport) (invoice : NewInvoice)
         (customerName : option string) (st : AppState)
         (x : Z) (originalInvoice : Invoice) (response : Response),
    ni_id invoice = Some x ->
    x <> 0 ->
    find (fun inv => id inv =? x) (invoices st) = Some originalInvoice ->
    net 0%nat (ReqUpdate x invoice) = Responded response ->
    ok response = false ->
    resp_status response <> 401 ->
    let run := handleUpdateInvoice env net invoice customerName st in
    find (fun inv => id inv =? x) (invoices (final run)) = Some originalInvoice /\
    outcome run = Rejected (errorDataOf response) /\
    token (final run) = token st /\
    tokenManager (final run) = tokenManager st /\
    invoiceListData (final run) = invoiceListData st.
Proof.
  intros env net invoice customerName st x originalInvoice response
         Hid Hx Hfind Hnet Hok H401 run.
  subst run. unfold handleUpdateInvoice. rewrite Hid. unfold truthy_id.
  apply Z.eqb_neq in Hx, H401. rewrite Hx, Hfind, Hnet, H401, Hok. simpl.
  destruct (find_id_spec x (invoices st) originalInvoice Hfind) as [Hox Hin].
  repeat split.
  rewrite <- Hox. apply find_after_replace. now rewrite replace_keeps_ids.
Qed.

Lemma update_failure_restores_record_and_rethrows_witness :
  ni_id (sampleDraft (Some 2)) = Some 2 /\
  2 <> 0 /\
  find (fun inv => id inv =? 2) (invoices smallState) = Some (sampleInvoice 2) /\
  always 422 0%nat (ReqUpdate 2 (sampleDraft (Some 2))) = Responded (bare 422) /\
  ok (bare 422) = false /\
  resp_status (bare 422) <> 401 /\
  let run := handleUpdateInvoice (fixedEnv 1700000000000) (always 422)
               (sampleDraft (Some 2)) None smallState in
  find (fun inv => id inv =? 2) (invoices (final run)) = Some (sampleInvoice 2) /\
  outcome run = Rejected (errorDataOf (bare 422)) /\
  token (final run) = token smallState /\
  tokenManager (final run) = tokenManager smallState /\
  invoiceListData (final run) = invoiceListData smallState.
Proof.
  split; [reflexivity |]. split; [lia |]. split; [reflexivity |].
  split; [reflexivity |]. split; [reflexivity |]. split; [simpl; lia |].
  apply (update_failure_restores_record_and_rethrows
           (fixedEnv 1700000000000) (always 422) (sampleDraft (Some 2)) None
           smallState 2 (sampleInvoice 2) (bare 422));
    try reflexivity; simpl; lia.
Defined.

Lemma replace_twice (x : Z) (u v : Invoice) (l : list Invoice) :
  id u = x -> id v = x ->
  map (fun inv => if id inv =? id v then v else inv)
      (map (fun inv => if id inv =? id u then u else inv) l)
  = map (fun inv => if id inv =? x then v else inv) l.
Proof.
  intros Hu Hv. rewrite map_map. apply map_ext. intros a. rewrite Hu, Hv.
  destruct (Z.eqb_spec (id a) x) as [_|Hne].
  - now rewrite Hu, Z.eqb_refl.
  - apply Z.eqb_neq in Hne. now rewrite Hne.
Qed.

(** X10: A confirmed update whose body parses to a record with the same
    identifier ends with the server's record in place of the edited one, in
    the array and in the page: the server's fields win. *)
Theorem update_success_installs_server_record :
  forall (env : Env) (net : Transport) (invoice : NewInvoice)
         (customerName : option string) (st : AppState)
         (x : Z) (originalInvoice serverInvoice : Invoice) (response : Response),
    ni_id invoice = Some x ->
    x <> 0 ->
    find (fun inv => id inv =? x) (invoices st) = Some originalInvoice ->
    net 0%nat (ReqUpdate x invoice) = Responded response ->
    ok response = true ->
    resp_blank response = false ->
    resp_invoice response = Some serverInvoice ->
    id serverInvoice = x ->
    let st' := final (handleUpdateInvoice env net invoice customerName st) in
    invoices st' = map (fun inv => if id inv =? x then serverInvoice else inv) (invoices st) /\
    invoiceListData st'
      = mapListInvoices (map (fun inv => if id inv =? x then serverInvoice else inv))
          (invoiceListData st).
Proof.
  intros env net invoice customerName st x originalInvoice serverInvoice response
         Hid Hx Hfind Hnet Hok Hblank Hsrv Hsid st'.
  subst st'. unfold handleUpdateInvoice. rewrite Hid. unfold truthy_id.
  apply Z.eqb_neq in Hx. rewrite Hx, Hfind, Hnet.
  assert (H401 : (resp_status response =? 401) = false).
  { apply Z.eqb_neq. intros H. apply not_ok_401 in H. congruence. }
  rewrite H401, Hok, Hblank, Hsrv. simpl.
  destruct (find_id_spec x (invoices st) originalInvoice Hfind) as [Hox _].
  split.
  - apply (replace_twice x (updatedInvoice env x originalInvoice invoice customerName)
             serverInvoice); assumption.
  - now rewrite Hsid.
Qed.

Lemma update_success_installs_server_record_witness :
  ni_id (sampleDraft (Some 2)) = Some 2 /\
  2 <> 0 /\
  find (fun inv => id inv =? 2) (invoices smallState) = Some (sampleInvoice 2) /\
  ok (withInvoice (sampleInvoice 2)) = true /\
  let st' := final (handleUpdateInvoice (fixedEnv 1700000000000)
                      (answering (withInvoice (sampleInvoice 2)))
                      (sampleDraft (Some 2)) None smallState) in
  invoices st' = map (fun inv => if id inv =? 2 then sampleInvoice 2 else inv)
                     (invoices smallState) /\
  invoiceListData st'
    = mapListInvoices (map (fun inv => if id inv =? 2 then sampleInvoice 2 else inv))
        (invoiceListData smallState).
Proof.
  split; [reflexivity |]. split; [lia |]. split; [reflexivity |]. split; [reflexivity |].
  apply (update_success_installs_server_record (fixedEnv 1700000000000)
           (answering (withInvoice (sampleInvoice 2)))
           (sampleDraft (Some 2)) None smallState 2 (sampleInvoice 2) (sampleInvoice 2)
           (withInvoice (sampleInvoice 2))); try reflexivity; lia.
Defined.

End UpdateFacts.

Section CreateFacts.

Lemma remove_temporary (tmp : Invoice) (l : list Invoice) :
  (forall inv, In inv l -> id inv <> id tmp) ->
  filter (fun inv => negb (id inv =? id tmp)) (tmp :: l) = l.
Proof.
  intros Hfresh. simpl. rewrite Z.eqb_refl. simpl. now apply remove_absent.
Qed.

(** X11: A confirmed create whose body parses: the temporary record gives way
    to the server's record at the front of the array, the page receives the
    record too and counts one more item; the session is left alone. *)
Theorem create_success_promotes_server_record :
  forall (env : Env) (userEmail : string) (net : Transport) (newInvoice : NewInvoice)
         (customerName : option string) (st : AppState) (response : Response)
         (createdInvoice : Invoice),
    net 0%nat (ReqCreate newInvoice) = Responded response ->
    ok response = true ->
    resp_blank response = false ->
    resp_invoice response = Some createdInvoice ->
    (forall inv, In inv (invoices st) ->
                 id inv <> id (tempInvoice env userEmail newInvoice customerName)) ->
    let run := handleCreateInvoice env userEmail net newInvoice customerName st in
    invoices (final run) = createdInvoice :: invoices st /\
    invoiceListData (final run) = addToList createdInvoice (invoiceListData st) /\
    token (final run) = token st /\
    outcome run = Resolved.
Proof.
  intros env userEmail net newInvoice customerName st response createdInvoice
         Hnet Hok Hblank Hinv Hfresh run.
  subst run. unfold handleCreateInvoice. rewrite Hnet.
  assert (H401 : (resp_status response =? 401) = false).
  { apply Z.eqb_neq. intros H. apply not_ok_401 in H. congruence. }
  rewrite H401, Hok, Hblank, Hinv.
  cbn [negb final outcome silentlyAddInvoiceToList optimisticallyAddInvoice
         optimisticallyRemoveInvoice setInvoices setInvoiceListData invoices
         invoiceListData token].
  rewrite remove_temporary by exact Hfresh. repeat split.
Qed.

Lemma create_success_promotes_server_record_witness :
  answering (withInvoice (sampleInvoice 11)) 0%nat (ReqCreate (sampleDraft None))
    = Responded (withInvoice (sampleInvoice 11)) /\
  ok (withInvoice (sampleInvoice 11)) = true /\
  let run := handleCreateInvoice (fixedEnv 1700000000000) "amal@example.com"
               (answering (withInvoice (sampleInvoice 11))) (sampleDraft None) None
               smallState in
  invoices (final run) = sampleInvoice 11 :: invoices smallState /\
  invoiceListData (final run) = addToList (sampleInvoice 11) (invoiceListData smallState) /\
  token (final run) = token smallState /\
  outcome run = Resolved.
Proof.
  split; [reflexivity |]. split; [reflexivity |].
  apply (create_success_promotes_server_record (fixedEnv 1700000000000) "amal@example.com"
           (answering (withInvoice (sampleInvoice 11))) (sampleDraft None) None smallState
           (withInvoice (sampleInvoice 11)) (sampleInvoice 11)); try reflexivity.
  intros inv Hin. simpl in Hin.
  destruct Hin as [<- | [<- | [<- | []]]]; simpl; lia.
Defined.

(** X12: When no cached record carries the temporary id, a confirmed
    create whose body is blank or does not parse leaves no trace: the
    temporary record is dropped, nothing is added to the array or to the
    page, and the handler still reports success. *)
Theorem create_success_without_body_adds_nothing :
  forall (env : Env) (userEmail : string) (net : Transport) (newInvoice : NewInvoice)
         (customerName : option string) (st : AppState) (response : Response),
    net 0%nat (ReqCreate newInvoice) = Responded response ->
    ok response = true ->
    resp_blank response = true \/ resp_invoice response = None ->
    (forall inv, In inv (invoices st) ->
                 id inv <> id (tempInvoice env userEmail newInvoice customerName)) ->
    let run := handleCreateInvoice env userEmail net newInvoice customerName st in
    final run = st /\ outcome run = Resolved.
Proof.
  intros env userEmail net newInvoice customerName st response Hnet Hok Hbody Hfresh run.
  subst run. unfold handleCreateInvoice. rewrite Hnet.
  assert (H401 : (resp_status response =? 401) = false).
  { apply Z.eqb_neq. intros H. apply not_ok_401 in H. congruence. }
  rewrite H401, Hok. cbn [negb].
  assert (Hback : optimisticallyRemoveInvoice
                    (id (tempInvoice env userEmail newInvoice customerName))
                    (optimisticallyAddInvoice
                       (tempInvoice env userEmail newInvoice customerName) st) = st).
  { unfold optimisticallyRemoveInvoice, optimisticallyAddInvoice, setInvoices.
    cbn [invoices token invoiceListData tokenManager].
    rewrite remove_temporary by exact Hfresh. now destruct st. }
  destruct (resp_blank response).
  - cbn [final outcome]. now rewrite Hback.
  - destruct Hbody as [Hb | Hb]; [discriminate |]. rewrite Hb.
    cbn [final outcome]. now rewrite Hback.
Qed.

Lemma create_success_without_body_adds_nothing_witness :
  always 201 0%nat (ReqCreate (sampleDraft None)) = Responded (bare 201) /\
  ok (bare 201) = true /\
  (resp_blank (bare 201) = true \/ resp_invoice (bare 201) = None) /\
  let run := handleCreateInvoice (fixedEnv 1700000000000) "amal@example.com"
               (always 201) (sampleDraft None) None smallState in
  final run = smallState /\ outcome run = Resolved.
Proof.
  split; [reflexivity |]. split; [reflexivity |]. split; [left; reflexivity |].
  apply (create_success_without_body_adds_nothing (fixedEnv 1700000000000)
           "amal@example.com" (always 201) (sampleDraft None) None smallState (bare 201));
    try reflexivity; [left; reflexivity |].
  intros inv Hin. simpl in Hin.
  destruct Hin as [<- | [<- | [<- | []]]]; simpl; lia.
Defined.

(** X13: A 401 on create tears the session down and resolves without an error:
    the caller is not told that the create failed. *)
Theorem create_401_clears_session_silently :
  forall (env : Env) (userEmail : string) (net : Transport) (newInvoice : NewInvoice)
         (customerName : option string) (st : AppState) (response : Response),
    net 0%nat (ReqCreate newInvoice) = Responded response ->
    resp_status response = 401 ->
    let run := handleCreateInvoice env userEmail net newInvoice customerName st in
    token (final run) = None /\
    tokenManager (final run) = clearAuthData (tokenManager st) /\
    outcome run = Resolved.
Proof.
  intros env userEmail net newInvoice customerName st response Hnet H401 run.
  subst run. unfold handleCreateInvoice. rewrite Hnet, H401. repeat split.
Qed.

Lemma create_401_clears_session_silently_witness :
  always 401 0%nat (ReqCreate (sampleDraft None)) = Responded (bare 401) /\
  resp_status (bare 401) = 401 /\
  let run := handleCreateInvoice (fixedEnv 1700000000000) "amal@example.com"
               (always 401) (sampleDraft None) None smallState in
  token (final run) = None /\
  tokenManager (final run) = clearAuthData (tokenManager smallState) /\
  outcome run = Resolved.
Proof.
  split; [reflexivity |]. split; [reflexivity |].
  apply (create_401_clears_session_silently (fixedEnv 1700000000000) "amal@example.com"
           (always 401) (sampleDraft None) None smallState (bare 401)); reflexivity.
Defined.

Lemma create_network_error_keeps_temporary_witness :
  offline 0%nat (ReqCreate (sampleDraft None)) = NetworkError /\
  invoices (final (handleCreateInvoice (fixedEnv 1700000000000) "amal@example.com"
                     offline (sampleDraft None) None smallState))
    = tempInvoice (fixedEnv 1700000000000) "amal@example.com" (sampleDraft None) None
      :: invoices smallState.
Proof.
  split; [reflexivity |].
  apply (create_network_error_keeps_temporary (fixedEnv 1700000000000) "amal@example.com"
           offline (sampleDraft None) None smallState). reflexivity.
Defined.

End CreateFacts.

Section DeleteFacts.

Lemma put_back_perm (i : Z) (o : Invoice) (l : list Invoice) :
  NoDup (map id l) ->
  find (fun inv => id inv =? i) l = Some o ->
  Permutation (o :: filter (fun inv => negb (id inv =? i)) l) l.
Proof.
  induction l as [|a l IH]; simpl; [discriminate |].
  intros Hnd Hfind. inversion Hnd as [|? ? Hnotin Hnd']; subst.
  destruct (Z.eqb_spec (id a) i) as [Heq|Hne].
  - injection Hfind as <-. simpl.
    rewrite remove_absent; [reflexivity |].
    intros inv Hin Hid. apply Hnotin. rewrite Heq, <- Hid. now apply in_map.
  - simpl. rewrite perm_swap. constructor. now apply IH.
Qed.

Lemma find_after_remove (i : Z) (l : list Invoice) :
  find (fun inv => id inv =? i) (filter (fun inv => negb (id inv =? i)) l) = None.
Proof.
  induction l as [|a l IH]; simpl; [reflexivity |].
  destruct (id a =? i) eqn:Ha; simpl; [exact IH | now rewrite Ha].
Qed.

(** X14: A refused single delete (401 or any other non-2xx status) sets the
    page back to the snapshot, records and pagination, and puts the record
    back at the front of the array; with unique identifiers the array holds
    exactly the records it held. *)
Theorem delete_failure_restores_page :
  forall (net : Transport) (i : Z) (st : AppState)
         (originalInvoice : Invoice) (response : Response),
    find (fun inv => id inv =? i) (invoices st) = Some originalInvoice ->
    net 0%nat (ReqDelete i) = Responded response ->
    ok response = false ->
    let run := handleDeleteInvoice net i st in
    invoiceListData (final run) = invoiceListData st /\
    invoices (final run)
      = originalInvoice :: filter (fun inv => negb (id inv =? i)) (invoices st) /\
    (NoDup (map id (invoices st)) -> Permutation (invoices (final run)) (invoices st)) /\
    issued run = [ReqDelete i].
Proof.
  intros net i st originalInvoice response Hfind Hnet Hok run.
  assert (Hinv : invoices (final run)
                 = originalInvoice :: filter (fun inv => negb (id inv =? i)) (invoices st)
                 /\ invoiceListData (final run) = invoiceListData st
                 /\ issued run = [ReqDelete i]).
  { subst run. unfold handleDeleteInvoice. rewrite Hfind, Hnet, Hok.
    destruct (resp_status response =? 401), (invoiceListData st); repeat split. }
  destruct Hinv as [Hinv [Hdata Hreq]].
  split; [exact Hdata |]. split; [exact Hinv |]. split; [| exact Hreq].
  intros Hnd. rewrite Hinv. now apply put_back_perm.
Qed.

Lemma delete_failure_restores_page_witness :
  find (fun inv => id inv =? 2) (invoices smallState) = Some (sampleInvoice 2) /\
  always 500 0%nat (ReqDelete 2) = Responded (bare 500) /\
  ok (bare 500) = false /\
  let run := handleDeleteInvoice (always 500) 2 smallState in
  invoiceListData (final run) = invoiceListData smallState /\
  invoices (final run)
    = sampleInvoice 2 :: filter (fun inv => negb (id inv =? 2)) (invoices smallState) /\
  (NoDup (map id (invoices smallState)) ->
   Permutation (invoices (final run)) (invoices smallState)) /\
  issued run = [ReqDelete 2].
Proof.
  split; [reflexivity |]. split; [reflexivity |]. split; [reflexivity |].
  apply (delete_failure_restores_page (always 500) 2 smallState (sampleInvoice 2) (bare 500));
    reflexivity.
Defined.

(** X15: A delete whose request never gets an answer is not rolled back: the
    record stays out of the array and of the page, and the page keeps
    counting one item less. *)
Theorem delete_network_error_is_not_rolled_back :
  forall (net : Transport) (i : Z) (st : AppState) (originalInvoice : Invoice),
    find (fun inv => id inv =? i) (invoices st) = Some originalInvoice ->
    net 0%nat (ReqDelete i) = NetworkError ->
    let run := handleDeleteInvoice net i st in
    invoices (final run) = filter (fun inv => negb (id inv =? i)) (invoices st) /\
    invoiceListData (final run) = removeFromList i (invoiceListData st) /\
    find (fun inv => id inv =? i) (invoices (final run)) = None.
Proof.
  intros net i st originalInvoice Hfind Hnet run.
  subst run. unfold handleDeleteInvoice. rewrite Hfind, Hnet.
  destruct (invoiceListData st) eqn:Hd; cbn [final];
    (split; [reflexivity |]; split; [simpl; now rewrite ?Hd | apply find_after_remove]).
Qed.

Lemma delete_network_error_is_not_rolled_back_witness :
  find (fun inv => id inv =? 2) (invoices smallState) = Some (sampleInvoice 2) /\
  offline 0%nat (ReqDelete 2) = NetworkError /\
  let run := handleDeleteInvoice offline 2 smallState in
  invoices (final run) = filter (fun inv => negb (id inv =? 2)) (invoices smallState) /\
  invoiceListData (final run) = removeFromList 2 (invoiceListData smallState) /\
  find (fun inv => id inv =? 2) (invoices (final run)) = None.
Proof.
  split; [reflexivity |]. split; [reflexivity |].
  apply (delete_network_error_is_not_rolled_back offline 2 smallState (sampleInvoice 2));
    reflexivity.
Defined.

Lemma delete_issues_nothing_iff_absent (net : Transport) (i : Z) (st : AppState) :
  find (fun inv => id inv =? i) (invoices st) = None <->
  issued (handleDeleteInvoice net i st) = [].
Proof.
  unfold handleDeleteInvoice.
  destruct (find (fun inv => id inv =? i) (invoices st)) as [o|];
    [| split; reflexivity].
  split; [discriminate |].
  destruct (net 0%nat (ReqDelete i)) as [|r]; [discriminate |].
  destruct (resp_status r =? 401); [discriminate |].
  destruct (negb (ok r)); [discriminate |].
  destruct (invoiceListData st) as [d|]; [| discriminate].
  destruct (_ && _); discriminate.
Qed.

(** X16: What [handleDeleteInvoice] sends: nothing when the record is not in
    the array, otherwise one [DELETE], followed by a list request only when
    the [DELETE] succeeded on a full page that has a successor, and then for
    the page number and page size held before the deletion. *)
Theorem delete_requests_characterised :
  forall (net : Transport) (i : Z) (st : AppState),
    (find (fun inv => id inv =? i) (invoices st) = None <->
     issued (handleDeleteInvoice net i st) = []) /\
    (forall pg pgSize,
        In (ReqList pg pgSize) (issued (handleDeleteInvoice net i st)) ->
        exists d response,
          invoiceListData st = Some d /\
          pg = page (pagination d) /\
          pgSize = pageSize (pagination d) /\
          Z.of_nat (List.length (ld_invoices d)) = pageSize (pagination d) /\
          js_lt (page (pagination d)) (totalPages (pagination d)) = true /\
          net 0%nat (ReqDelete i) = Responded response /\
          ok response = true).
Proof.
  intros net i st. split; [apply delete_issues_nothing_iff_absent |].
  unfold handleDeleteInvoice.
  destruct (find (fun inv => id inv =? i) (invoices st)) as [o|];
    [| intros pg pgSize []].
  intros pg pgSize Hin.
  destruct (net 0%nat (ReqDelete i)) as [|r];
    [simpl in Hin; intuition discriminate |].
  destruct (resp_status r =? 401); [simpl in Hin; intuition discriminate |].
  destruct (ok r) eqn:Hok; [| simpl in Hin; intuition discriminate].
  cbn [negb] in Hin.
  destruct (invoiceListData st) as [d|]; [| simpl in Hin; intuition discriminate].
  destruct (Z.of_nat (List.length (ld_invoices d)) =? pageSize (pagination d)) eqn:Hlen;
    [| simpl in Hin; intuition discriminate].
  destruct (js_lt (page (pagination d)) (totalPages (pagination d))) eqn:Hlt;
    [| simpl in Hin; intuition discriminate].
  simpl in Hin. destruct Hin as [H | [H | []]]; [discriminate |].
  injection H as <- <-. exists d, r. apply Z.eqb_eq in Hlen. repeat split; assumption.
Qed.

End DeleteFacts.

Section ListSyncFacts.

(** X17: After a successful list fetch the array and the page hold the same
    records, so every record shown on the page is one [handleDeleteInvoice]
    finds: its [DELETE] request is issued. *)
Theorem fetched_record_can_be_deleted :
  forall (response : Response) (data : ListData) (st : AppState) (net : Transport)
         (inv : Invoice),
    ok response = true ->
    resp_list response = Some data ->
    In inv (ld_invoices data) ->
    let st' := fetchInvoices (Responded response) st in
    invoiceListData st' = Some data /\
    invoices st' = ld_invoices data /\
    issued (handleDeleteInvoice net (id inv) st') <> [].
Proof.
  intros response data st net inv Hok Hlist Hin st'.
  assert (H401 : (resp_status response =? 401) = false).
  { apply Z.eqb_neq. intros H. apply not_ok_401 in H. congruence. }
  assert (Hst : invoiceListData st' = Some data /\ invoices st' = ld_invoices data).
  { subst st'. unfold fetchInvoices. rewrite H401, Hok, Hlist. split; reflexivity. }
  destruct Hst as [Hd Hi]. split; [exact Hd |]. split; [exact Hi |].
  intros Hnone. apply delete_issues_nothing_iff_absent in Hnone.
  rewrite Hi in Hnone.
  apply (find_none _ _ Hnone) in Hin. now rewrite Z.eqb_refl in Hin.
Qed.

Lemma fetched_record_can_be_deleted_witness :
  ok (withPage fullPage) = true /\
  resp_list (withPage fullPage) = Some fullPage /\
  In (sampleInvoice 4) (ld_invoices fullPage) /\
  let st' := fetchInvoices (Responded (withPage fullPage)) smallState in
  invoiceListData st' = Some fullPage /\
  invoices st' = ld_invoices fullPage /\
  issued (handleDeleteInvoice offline (id (sampleInvoice 4)) st') <> [].
Proof.
  split; [reflexivity |]. split; [reflexivity |].
  split; [simpl; auto 6 |].
  apply (fetched_record_can_be_deleted (withPage fullPage) fullPage smallState offline
           (sampleInvoice 4)); [reflexivity | reflexivity | simpl; auto 6].
Defined.

(** X18: The silent refresh after a delete replaces the page only: a record
    that it brings onto the page and that the array does not know cannot
    be deleted afterwards.  [handleDeleteInvoice] does not find it, sends
    nothing and leaves the state as it is. *)
Theorem backfilled_record_cannot_be_deleted :
  forall (net net' : Transport) (k : nat) (d data : ListData) (st : AppState)
         (response : Response) (inv : Invoice),
    net k (refreshRequest d) = Responded response ->
    ok response = true ->
    resp_list response = Some data ->
    In inv (ld_invoices data) ->
    (forall known, In known (invoices st) -> id known <> id inv) ->
    let st' := refreshPage net k d st in
    invoiceListData st' = Some data /\
    invoices st' = invoices st /\
    final (handleDeleteInvoice net' (id inv) st') = st' /\
    issued (handleDeleteInvoice net' (id inv) st') = [].
Proof.
  intros net net' k d data st response inv Hnet Hok Hlist Hin Hnew st'.
  assert (Hst : invoiceListData st' = Some data /\ invoices st' = invoices st).
  { subst st'. unfold refreshPage. rewrite Hnet, Hok, Hlist. split; reflexivity. }
  destruct Hst as [Hd Hi]. split; [exact Hd |]. split; [exact Hi |].
  assert (Hnone : find (fun x => id x =? id inv) (invoices st') = None).
  { rewrite Hi. clear - Hnew. induction (invoices st) as [|a l IH]; [reflexivity |].
    simpl. destruct (Z.eqb_spec (id a) (id inv)) as [Heq|_].
    - exfalso. apply (Hnew a); [now left | exact Heq].
    - apply IH. intros known Hk. apply Hnew. now right. }
  unfold handleDeleteInvoice. rewrite Hnone. split; reflexivity.
Qed.

Lemma backfilled_record_cannot_be_deleted_witness :
  let st1 := final (handleDeleteInvoice (answering (withPage backfilledPage)) 3 fullState) in
  answering (withPage backfilledPage) 1%nat (refreshRequest fullPage)
    = Responded (withPage backfilledPage) /\
  ok (withPage backfilledPage) = true /\
  resp_list (withPage backfilledPage) = Some backfilledPage /\
  In (sampleInvoice 6) (ld_invoices backfilledPage) /\
  let st' := refreshPage (answering (withPage backfilledPage)) 1 fullPage
               (setInvoiceListData (removeFromList 3)
                  (optimisticallyRemoveInvoice 3 fullState)) in
  st' = st1 /\
  invoiceListData st' = Some backfilledPage /\
  final (handleDeleteInvoice offline (id (sampleInvoice 6)) st') = st' /\
  issued (handleDeleteInvoice offline (id (sampleInvoice 6)) st') = [].
Proof.
  intros st1. split; [reflexivity |]. split; [reflexivity |]. split; [reflexivity |].
  split; [simpl; auto 8 |]. intros st'. split; [reflexivity |].
  destruct (backfilled_record_cannot_be_deleted
              (answering (withPage backfilledPage)) offline 1 fullPage backfilledPage
              (setInvoiceListData (removeFromList 3) (optimisticallyRemoveInvoice 3 fullState))
              (withPage backfilledPage) (sampleInvoice 6))
    as [Hd [_ [Hf Hi]]]; try reflexivity.
  - simpl; auto 8.
  - intros known Hk. simpl in Hk.
    destruct Hk as [<- | [<- | [<- | [<- | []]]]]; simpl; lia.
  - split; [exact Hd |]. split; [exact Hf | exact Hi].
Defined.

End ListSyncFacts.

Section SessionFacts.

Lemma refreshPage_keeps_session (net : Transport) (k : nat) (d : ListData) (st : AppState) :
  token (refreshPage net k d st) = token st /\
  tokenManager (refreshPage net k d st) = tokenManager st /\
  invoices (refreshPage net k d st) = invoices st.
Proof.
  unfold refreshPage. destruct (net k (refreshRequest d)) as [|r]; [now repeat split |].
  destruct (ok r); [| now repeat split].
  destruct (resp_list r); now repeat split.
Qed.

Lemma deleteAnswers_none_rejects (net : Transport) (ids : list Z) (k0 : nat) :
  (forall k i, nth_error ids k = Some i -> rejects (net (k0 + k)%nat (ReqDelete i)) = false) ->
  existsb rejects (deleteAnswers net k0 ids) = false.
Proof.
  revert k0. induction ids as [|j ids IH]; intros k0 H; simpl; [reflexivity |].
  rewrite (IH (S k0)).
  - specialize (H 0%nat j eq_refl). rewrite Nat.add_0_r in H. now rewrite H.
  - intros k i Hnth. rewrite Nat.add_succ_comm. now apply (H (S k) i).
Qed.

Lemma deleteAnswers_none_unauthenticated (net : Transport) (ids : list Z) (k0 : nat) :
  (forall k req r, net k req = Responded r -> resp_status r <> 401) ->
  existsb unauthenticated (deleteAnswers net k0 ids) = false.
Proof.
  intros H. revert k0. induction ids as [|j ids IH]; intros k0; simpl; [reflexivity |].
  rewrite IH, orb_false_r. unfold unauthenticated.
  destruct (net k0 (ReqDelete j)) as [|r] eqn:Hnet; [reflexivity |].
  apply Z.eqb_neq. now apply (H k0 (ReqDelete j)).
Qed.

(** X19: The session is only ever torn down on a 401: when no answer of the
    transport carries that status, the create, update, delete and
    bulk-delete handlers all leave the token and the stored authentication
    data as they found them. *)
Theorem session_survives_without_401 :
  forall (env : Env) (userEmail : string) (net : Transport) (draft : NewInvoice)
         (customerName : option string) (i : Z) (ids : list Z) (st : AppState),
    (forall k req r, net k req = Responded r -> resp_status r <> 401) ->
    let session := fun s : AppState => (token s, tokenManager s) in
    session (final (handleCreateInvoice env userEmail net draft customerName st)) = session st /\
    session (final (handleUpdateInvoice env net draft customerName st)) = session st /\
    session (final (handleDeleteInvoice net i st)) = session st /\
    session (final (handleBulkDelete net ids st)) = session st.
Proof.
  intros env userEmail net draft customerName i ids st Hno session. subst session.
  repeat split.
  - unfold handleCreateInvoice.
    destruct (net 0%nat (ReqCreate draft)) as [|r] eqn:Hnet; [reflexivity |].
    apply Hno, Z.eqb_neq in Hnet. rewrite Hnet.
    destruct (negb (ok r)).
    + destruct (thrown_tempInvoiceId (errorDataOf r)); reflexivity.
    + destruct (resp_blank r); [reflexivity |]. destruct (resp_invoice r); reflexivity.
  - unfold handleUpdateInvoice.
    destruct (truthy_id (ni_id draft)) as [x|]; [| reflexivity].
    destruct (find (fun inv => id inv =? x) (invoices st)) as [o|]; [| reflexivity].
    destruct (net 0%nat (ReqUpdate x draft)) as [|r] eqn:Hnet; [reflexivity |].
    apply Hno, Z.eqb_neq in Hnet. rewrite Hnet.
    destruct (negb (ok r)); [reflexivity |].
    destruct (resp_blank r); [reflexivity |]. destruct (resp_invoice r); reflexivity.
  - unfold handleDeleteInvoice.
    destruct (find (fun inv => id inv =? i) (invoices st)) as [o|]; [| reflexivity].
    destruct (net 0%nat (ReqDelete i)) as [|r] eqn:Hnet.
    + destruct (invoiceListData st); reflexivity.
    + apply Hno, Z.eqb_neq in Hnet. rewrite Hnet.
      destruct (invoiceListData st) as [d|] eqn:Hd;
        [| destruct (negb (ok r)); reflexivity].
      destruct (negb (ok r)); [reflexivity |].
      destruct (_ && _); [| reflexivity].
      cbn [final].
      destruct (refreshPage_keeps_session net 1 d
                  (setInvoiceListData (removeFromList i) (optimisticallyRemoveInvoice i st)))
        as [Ht [Hm _]].
      now rewrite Ht, Hm.
  - unfold handleBulkDelete.
    rewrite (deleteAnswers_none_unauthenticated net ids 0 Hno).
    rewrite forEach_remove.
    destruct (existsb rejects (deleteAnswers net 0 ids)).
    + cbn [final]. rewrite forEach_add.
      destruct (invoiceListData st); reflexivity.
    + destruct (invoiceListData st) as [d|] eqn:Hd; [| reflexivity].
      destruct (_ && _); [| reflexivity].
      cbn [final].
      destruct (refreshPage_keeps_session net (List.length ids) d
                  (setInvoiceListData (bulkRemoveFromList ids)
                     (setInvoices (filter (fun inv => negb (includes ids (id inv)))) st)))
        as [Ht [Hm _]].
      now rewrite Ht, Hm.
Qed.

Lemma session_survives_without_401_witness :
  (forall k req r, always 500 k req = Responded r -> resp_status r <> 401) /\
  let session := fun s : AppState => (token s, tokenManager s) in
  session (final (handleCreateInvoice (fixedEnv 1700000000000) "amal@example.com"
                    (always 500) (sampleDraft (Some 2)) None smallState))
    = session smallState /\
  session (final (handleUpdateInvoice (fixedEnv 1700000000000) (always 500)
                    (sampleDraft (Some 2)) None smallState)) = session smallState /\
  session (final (handleDeleteInvoice (always 500) 2 smallState)) = session smallState /\
  session (final (handleBulkDelete (always 500) [1; 3] smallState)) = session smallState.
Proof.
  assert (H : forall k req r, always 500 k req = Responded r -> resp_status r <> 401).
  { intros k req r Heq. injection Heq as <-. simpl. lia. }
  split; [exact H |].
  apply (session_survives_without_401 (fixedEnv 1700000000000) "amal@example.com"
           (always 500) (sampleDraft (Some 2)) None 2 [1; 3] smallState H).
Defined.

(** X20: When every call of a bulk delete succeeds, no record whose identifier
    is in the batch is left in the array, the other records keep their
    order, and the session is untouched. *)
Theorem bulk_delete_success_removes_batch :
  forall (net : Transport) (ids : list Z) (st : AppState),
    (forall k i, nth_error ids k = Some i -> rejects (net k (ReqDelete i)) = false) ->
    let run := handleBulkDelete net ids st in
    invoices (final run) = filter (fun inv => negb (includes ids (id inv))) (invoices st) /\
    (forall inv, In inv (invoices (final run)) -> ~ In (id inv) ids) /\
    token (final run) = token st /\
    firstn (List.length ids) (issued run) = deleteRequests ids.
Proof.
  intros net ids st Hall run.
  assert (Hrej : existsb rejects (deleteAnswers net 0 ids) = false)
    by (apply deleteAnswers_none_rejects; exact Hall).
  assert (Hun : existsb unauthenticated (deleteAnswers net 0 ids) = false).
  { clear - Hrej. revert Hrej. generalize 0%nat.
    induction ids as [|j ids IH]; intros k0 H; simpl in *; [reflexivity |].
    apply orb_false_iff in H. destruct H as [H1 H2]. rewrite (IH _ H2), orb_false_r.
    destruct (net k0 (ReqDelete j)) as [|r]; [reflexivity |]. simpl in *.
    now apply orb_false_iff in H1. }
  assert (Hlen : List.length (deleteRequests ids) = List.length ids)
    by (clear; induction ids; simpl; congruence).
  assert (Hinv : invoices (final run)
                 = filter (fun inv => negb (includes ids (id inv))) (invoices st)
                 /\ token (final run) = token st
                 /\ firstn (List.length ids) (issued run) = deleteRequests ids).
  { subst run. unfold handleBulkDelete. rewrite Hrej, Hun, forEach_remove.
    destruct (invoiceListData st) as [d|] eqn:Hd.
    - destruct (_ && _); cbn [final issued].
      + destruct (refreshPage_keeps_session net (List.length ids) d
                    (setInvoiceListData (bulkRemoveFromList ids)
                       (setInvoices (filter (fun inv => negb (includes ids (id inv)))) st)))
          as [Ht [_ Hi]].
        rewrite Ht, Hi. repeat split.
        rewrite <- Hlen, firstn_app, Nat.sub_diag, firstn_all. simpl.
        apply app_nil_r.
      + repeat split. rewrite <- Hlen. apply firstn_all.
    - cbn [final issued]. repeat split. rewrite <- Hlen. apply firstn_all. }
  destruct Hinv as [Hinv [Ht Hreq]].
  split; [exact Hinv |]. split; [| split; assumption].
  intros inv Hin Hid. rewrite Hinv in Hin. apply filter_In in Hin.
  destruct Hin as [_ Hneg]. apply negb_true_iff in Hneg.
  apply includes_In in Hid. congruence.
Qed.

Lemma bulk_delete_success_removes_batch_witness :
  (forall k i, nth_error [1; 3] k = Some i -> rejects (always 204 k (ReqDelete i)) = false) /\
  let run := handleBulkDelete (always 204) [1; 3] smallState in
  invoices (final run)
    = filter (fun inv => negb (includes [1; 3] (id inv))) (invoices smallState) /\
  (forall inv, In inv (invoices (final run)) -> ~ In (id inv) [1; 3]) /\
  token (final run) = token smallState /\
  firstn (List.length [1; 3]) (issued run) = deleteRequests [1; 3].
Proof.
  assert (H : forall k i, nth_error [1; 3] k = Some i ->
                          rejects (always 204 k (ReqDelete i)) = false)
    by (intros k i _; reflexivity).
  split; [exact H |].
  apply (bulk_delete_success_removes_batch (always 204) [1; 3] smallState H).
Defined.

Lemma bulk_delete_401_clears_session_witness :
  nth_error [1; 3] 1 = Some 3 /\
  unauthenticated (always 401 1%nat (ReqDelete 3)) = true /\
  token (final (handleBulkDelete (always 401) [1; 3] smallState)) = None /\
  tokenManager (final (handleBulkDelete (always 401) [1; 3] smallState))
    = clearAuthData (tokenManager smallState).
Proof.
  split; [reflexivity |]. split; [reflexivity |].
  apply (bulk_delete_401_clears_session (always 401) [1; 3] smallState 1%nat 3); reflexivity.
Defined.

End SessionFacts.

Section StatusUpdateFacts.

Lemma opt_str_or_twice (a b : option string) :
  opt_str_or a (opt_str_or a b) = opt_str_or a b.
Proof.
  destruct a as [s|]; simpl; [| reflexivity].
  destruct (String.eqb s EmptyString) eqn:Hs; simpl; [| reflexivity].
  reflexivity.
Qed.

Lemma withStatus_twice (newStatus : Z) (sub rej : option string) (inv : Invoice) :
  withStatus newStatus sub rej (withStatus newStatus sub rej inv)
  = withStatus newStatus sub rej inv.
Proof. unfold withStatus. simpl. now rewrite !opt_str_or_twice. Qed.

Lemma status_map_twice (i newStatus : Z) (sub rej : option string) (l : list Invoice) :
  map (fun inv => if id inv =? i then withStatus newStatus sub rej inv else inv)
      (map (fun inv => if id inv =? i then withStatus newStatus sub rej inv else inv) l)
  = map (fun inv => if id inv =? i then withStatus newStatus sub rej inv else inv) l.
Proof.
  rewrite map_map. apply map_ext. intros a.
  destruct (id a =? i) eqn:Ha; simpl; rewrite Ha; [apply withStatus_twice | reflexivity].
Qed.

Lemma status_map_ids (i newStatus : Z) (sub rej : option string) (l : list Invoice) :
  map id (map (fun inv => if id inv =? i then withStatus newStatus sub rej inv else inv) l)
  = map id l.
Proof.
  rewrite map_map. apply map_ext. intros a. now destruct (id a =? i).
Qed.

(** X22: Setting a status optimistically is idempotent and structural: doing
    it twice is doing it once, and it keeps the identifiers and order of the
    array and of the page, the pagination and the session. *)
Theorem status_update_is_idempotent_and_structural :
  forall (i newStatus : Z) (sub rej : option string) (st : AppState),
    let st' := optimisticallyUpdateInvoiceStatus i newStatus sub rej st in
    optimisticallyUpdateInvoiceStatus i newStatus sub rej st' = st' /\
    map id (invoices st') = map id (invoices st) /\
    pageShape (invoiceListData st') = pageShape (invoiceListData st) /\
    token st' = token st.
Proof.
  intros i newStatus sub rej st st'. subst st'.
  unfold optimisticallyUpdateInvoiceStatus, setInvoiceListData, setInvoices, pageShape.
  cbn [invoices invoiceListData token tokenManager].
  repeat split.
  - f_equal; [apply status_map_twice |].
    destruct (invoiceListData st) as [d|]; simpl; [| reflexivity].
    now rewrite status_map_twice.
  - apply status_map_ids.
  - destruct (invoiceListData st) as [d|]; simpl; [| reflexivity].
    now rewrite status_map_ids.
Qed.

End StatusUpdateFacts.

(** * Submission to the tax authority *)

Section SubmitFacts.

Lemma find_after_status (i newStatus : Z) (sub rej : option string) (l : list Invoice) :
  find (fun inv => id inv =? i)
       (map (fun inv => if id inv =? i then withStatus newStatus sub rej inv else inv) l)
  = option_map (withStatus newStatus sub rej) (find (fun inv => id inv =? i) l).
Proof.
  induction l as [|a l IH]; simpl; [reflexivity |].
  destruct (id a =? i) eqn:Ha; simpl; rewrite Ha; [reflexivity | exact IH].
Qed.

Lemma withStatus_after_plain (newStatus : Z) (sub : option string) (inv : Invoice) :
  withStatus newStatus sub None (withStatus newStatus None None inv)
  = withStatus newStatus sub None inv.
Proof. reflexivity. Qed.

Lemma status_map_after_plain (i newStatus : Z) (sub : option string) (l : list Invoice) :
  map (fun inv => if id inv =? i then withStatus newStatus sub None inv else inv)
      (map (fun inv => if id inv =? i then withStatus newStatus None None inv else inv) l)
  = map (fun inv => if id inv =? i then withStatus newStatus sub None inv else inv) l.
Proof.
  rewrite map_map. apply map_ext. intros a.
  destruct (id a =? i) eqn:Ha; simpl; now rewrite Ha.
Qed.

(** X23: An accepted submission leaves the invoice awaiting clearance in the
    array and in the page, carrying the submission identifier when the
    answer holds one; the session is untouched. *)
Theorem submit_success_marks_awaiting_clearance :
  forall (net : SubmitTransport) (i : Z) (st : AppState)
         (originalInvoice : Invoice) (response : SubmitResponse),
    find (fun inv => id inv =? i) (invoices st) = Some originalInvoice ->
    net 0%nat i = SubmitResponded response ->
    sub_ok response = true ->
    let st' := fst (handleSubmitInvoice net i st) in
    find (fun inv => id inv =? i) (invoices st')
      = Some (withStatus 2 (submissionIdOf response) None originalInvoice) /\
    invoiceListData st'
      = mapListInvoices
          (map (fun inv => if id inv =? i
                           then withStatus 2 (submissionIdOf response) None inv else inv))
          (invoiceListData st) /\
    token st' = token st.
Proof.
  intros net i st originalInvoice response Hfind Hnet Hok st'.
  subst st'. unfold handleSubmitInvoice. rewrite Hfind, Hnet, Hok.
  assert (H401 : (sub_status response =? 401) = false).
  { apply Z.eqb_neq. intros H. unfold sub_ok in Hok. rewrite H in Hok. discriminate. }
  rewrite H401. cbn [negb].
  destruct (submissionIdOf response) as [dgi|]; cbn [fst];
    unfold optimisticallyUpdateInvoiceStatus, setInvoiceListData, setInvoices;
    cbn [invoices invoiceListData token tokenManager].
  - rewrite status_map_after_plain, find_after_status, Hfind. repeat split.
    destruct (invoiceListData st) as [d|]; simpl; [| reflexivity].
    now rewrite status_map_after_plain.
  - rewrite find_after_status, Hfind. repeat split.
Qed.

Lemma submit_success_marks_awaiting_clearance_witness :
  find (fun inv => id inv =? 2) (invoices smallState) = Some (sampleInvoice 2) /\
  submitAlways (submitted 200 (Some "DGI-1"%string)) 0%nat 2
    = SubmitResponded (submitted 200 (Some "DGI-1"%string)) /\
  sub_ok (submitted 200 (Some "DGI-1"%string)) = true /\
  let st' := fst (handleSubmitInvoice (submitAlways (submitted 200 (Some "DGI-1"%string)))
                    2 smallState) in
  find (fun inv => id inv =? 2) (invoices st')
    = Some (withStatus 2 (Some "DGI-1"%string) None (sampleInvoice 2)) /\
  invoiceListData st'
    = mapListInvoices
        (map (fun inv => if id inv =? 2
                         then withStatus 2 (Some "DGI-1"%string) None inv else inv))
        (invoiceListData smallState) /\
  token st' = token smallState.
Proof.
  split; [reflexivity |]. split; [reflexivity |]. split; [reflexivity |].
  apply (submit_success_marks_awaiting_clearance
           (submitAlways (submitted 200 (Some "DGI-1"%string))) 2 smallState
           (sampleInvoice 2) (submitted 200 (Some "DGI-1"%string))); reflexivity.
Defined.

(** X24: A refused submission (401 or any other non-2xx status) is rolled back
    in the array only: the record found there is the snapshot again, while
    every record with that identifier on the page still shows the optimistic
    status 2. *)
Theorem submit_failure_restores_array_only :
  forall (net : SubmitTransport) (i : Z) (st : AppState)
         (originalInvoice : Invoice) (response : SubmitResponse),
    find (fun inv => id inv =? i) (invoices st) = Some originalInvoice ->
    net 0%nat i = SubmitResponded response ->
    sub_ok response = false ->
    let st' := fst (handleSubmitInvoice net i st) in
    find (fun inv => id inv =? i) (invoices st') = Some originalInvoice /\
    (forall d', invoiceListData st' = Some d' ->
                forall inv, In inv (ld_invoices d') -> id inv = i -> status inv = 2).
Proof.
  intros net i st originalInvoice response Hfind Hnet Hok st'.
  destruct (find_id_spec i (invoices st) originalInvoice Hfind) as [Hoi Hin].
  assert (H : invoices st'
              = map (fun inv => if id inv =? id originalInvoice then originalInvoice else inv)
                    (map (fun inv => if id inv =? i then withStatus 2 None None inv else inv)
                         (invoices st))
              /\ invoiceListData st'
                 = mapListInvoices
                     (map (fun inv => if id inv =? i then withStatus 2 None None inv else inv))
                     (invoiceListData st)).
  { subst st'. unfold handleSubmitInvoice. rewrite Hfind, Hnet, Hok.
    destruct (sub_status response =? 401); split; reflexivity. }
  destruct H as [Hinv Hpage]. split.
  - rewrite Hinv, <- Hoi. apply find_after_replace.
    now rewrite status_map_ids.
  - intros d' Hd' inv Hinpage Hid. rewrite Hpage in Hd'.
    destruct (invoiceListData st) as [d|]; [| discriminate].
    injection Hd' as <-. simpl in Hinpage. apply in_map_iff in Hinpage.
    destruct Hinpage as [a [Ha _]].
    destruct (Z.eqb_spec (id a) i) as [_|Hne].
    + now subst inv.
    + subst inv. contradiction.
Qed.

Lemma submit_failure_restores_array_only_witness :
  find (fun inv => id inv =? 2) (invoices smallState) = Some (sampleInvoice 2) /\
  submitAlways (submitted 500 None) 0%nat 2 = SubmitResponded (submitted 500 None) /\
  sub_ok (submitted 500 None) = false /\
  let st' := fst (handleSubmitInvoice (submitAlways (submitted 500 None)) 2 smallState) in
  find (fun inv => id inv =? 2) (invoices st') = Some (sampleInvoice 2) /\
  (forall d', invoiceListData st' = Some d' ->
              forall inv, In inv (ld_invoices d') -> id inv = 2 -> status inv = 2).
Proof.
  split; [reflexivity |]. split; [reflexivity |]. split; [reflexivity |].
  apply (submit_failure_restores_array_only (submitAlways (submitted 500 None)) 2 smallState
           (sampleInvoice 2) (submitted 500 None)); reflexivity.
Defined.

End SubmitFacts.

Section BulkSubmitFacts.

Lemma forEach_status (ids : list Z) (st : AppState) :
  fold_left (fun s i => optimisticallyUpdateInvoiceStatus i 2 None None s) ids st
  = setInvoiceListData (mapListInvoices (map (markBatch ids)))
      (setInvoices (map (markBatch ids)) st).
Proof.
  revert st. induction ids as [|i ids IH]; intros st; simpl.
  - destruct st as [t l d m]. unfold setInvoiceListData, setInvoices. simpl.
    f_equal; [symmetry; apply map_id |].
    destruct d as [[l' p]|]; simpl; [| reflexivity]. now rewrite map_id.
  - rewrite IH.
    unfold optimisticallyUpdateInvoiceStatus, setInvoiceListData, setInvoices.
    cbn [invoices invoiceListData token tokenManager].
    assert (Hpt : forall l,
               map (markBatch ids)
                   (map (fun inv => if id inv =? i then withStatus 2 None None inv else inv) l)
               = map (markBatch (i :: ids)) l).
    { intros l. rewrite map_map. apply map_ext. intros a.
      unfold markBatch. rewrite includes_cons.
      destruct (id a =? i) eqn:Ha; simpl; [| reflexivity].
      now destruct (includes ids (id a)). }
    f_equal; [apply Hpt |].
    destruct (invoiceListData st) as [d|]; simpl; [| reflexivity].
    now rewrite Hpt.
Qed.

Lemma forEach_replace (originals : list Invoice) (st : AppState) :
  fold_left (fun s o => optimisticallyUpdateInvoice o s) originals st
  = setInvoices (map (putBack originals)) st.
Proof.
  revert st. induction originals as [|o rest IH]; intros st; simpl.
  - destruct st as [t l d m]. unfold setInvoices. simpl. f_equal. symmetry. apply map_id.
  - rewrite IH. unfold optimisticallyUpdateInvoice, setInvoices.
    cbn [invoices invoiceListData token tokenManager]. f_equal. now rewrite map_map.
Qed.

Lemma putBack_absent (originals : list Invoice) (inv : Invoice) :
  ~ In (id inv) (map id originals) -> putBack originals inv = inv.
Proof.
  revert inv. induction originals as [|o rest IH]; intros inv Hnot; simpl; [reflexivity |].
  simpl in Hnot. destruct (Z.eqb_spec (id inv) (id o)) as [Heq|_].
  - exfalso. apply Hnot. left. now symmetry.
  - apply IH. tauto.
Qed.

Lemma putBack_present (originals : list Invoice) (o inv : Invoice) :
  NoDup (map id originals) ->
  In o originals ->
  id inv = id o ->
  putBack originals inv = o.
Proof.
  revert inv. induction originals as [|a rest IH]; intros inv Hnd Hin Hid; [contradiction |].
  simpl. inversion Hnd as [|? ? Hnotin Hnd']; subst.
  destruct Hin as [-> | Hin].
  - rewrite Hid, Z.eqb_refl. now apply putBack_absent.
  - destruct (Z.eqb_spec (id inv) (id a)) as [Heq|_].
    + exfalso. apply Hnotin. rewrite <- Heq, Hid. now apply in_map.
    + now apply IH.
Qed.

Lemma NoDup_ids_filter (f : Invoice -> bool) (l : list Invoice) :
  NoDup (map id l) -> NoDup (map id (filter f l)).
Proof.
  induction l as [|a l IH]; simpl; intros Hnd; [constructor |].
  inversion Hnd as [|? ? Hnotin Hnd']; subst.
  destruct (f a); simpl; [| now apply IH].
  constructor; [| now apply IH].
  intros Hin. apply Hnotin. apply in_map_iff in Hin. destruct Hin as [b [Hb Hinb]].
  apply filter_In in Hinb. rewrite <- Hb. apply in_map. tauto.
Qed.

Lemma putBack_after_mark (ids : list Z) (l : list Invoice) :
  NoDup (map id l) ->
  map (putBack (filter (fun inv => includes ids (id inv)) l)) (map (markBatch ids) l) = l.
Proof.
  intros Hnd. rewrite map_map.
  transitivity (map (fun inv : Invoice => inv) l); [| apply map_id].
  apply map_ext_in. intros a Ha.
  unfold markBatch. destruct (includes ids (id a)) eqn:Hinc.
  - apply putBack_present.
    + now apply NoDup_ids_filter.
    + apply filter_In. now split.
    + reflexivity.
  - apply putBack_absent. intros Hin. apply in_map_iff in Hin.
    destruct Hin as [b [Hb Hinb]]. apply filter_In in Hinb.
    destruct Hinb as [_ Hb']. rewrite Hb in Hb'. congruence.
Qed.

Lemma submitAnswers_rejects (net : SubmitTransport) (ids : list Z) (k0 k : nat) (i : Z) :
  nth_error ids k = Some i ->
  submitRejects (net (k0 + k)%nat i) = true ->
  existsb submitRejects (submitAnswers net k0 ids) = true.
Proof.
  revert k0 k. induction ids as [|j ids IH]; intros k0 k Hnth Hrej.
  - now destruct k.
  - simpl. destruct k as [|k]; simpl in Hnth.
    + injection Hnth as ->. rewrite Nat.add_0_r in Hrej. now rewrite Hrej.
    + apply orb_true_iff. right. apply (IH (S k0) k Hnth).
      now rewrite Nat.add_succ_comm.
Qed.

(** X25: In a bulk submit, as soon as one call fails the array is the one of
    before the batch (identifiers being unique), whereas the page is not
    rolled back: every record of the batch still shows status 2 there. *)
Theorem bulk_submit_failure_restores_array_only :
  forall (net : SubmitTransport) (ids : list Z) (st : AppState) (k : nat) (i : Z),
    NoDup (map id (invoices st)) ->
    nth_error ids k = Some i ->
    submitRejects (net k i) = true ->
    let st' := handleBulkSubmit net ids st in
    invoices st' = invoices st /\
    (forall d', invoiceListData st' = Some d' ->
                forall inv, In inv (ld_invoices d') -> In (id inv) ids -> status inv = 2).
Proof.
  intros net ids st k i Hnd Hnth Hrej st'.
  assert (Hex : existsb submitRejects (submitAnswers net 0 ids) = true)
    by (apply (submitAnswers_rejects net ids 0 k i); assumption).
  assert (H : invoices st' = invoices st /\
              invoiceListData st'
              = mapListInvoices (map (markBatch ids)) (invoiceListData st)).
  { subst st'. unfold handleBulkSubmit. rewrite Hex, forEach_replace, forEach_status.
    destruct (existsb submitUnauthenticated (submitAnswers net 0 ids));
      (split; [| reflexivity]); cbn [invoices setInvoices setInvoiceListData setToken
                                      tokenManager_clearAuthData];
      now apply putBack_after_mark. }
  destruct H as [Hinv Hpage]. split; [exact Hinv |].
  intros d' Hd' inv Hin Hid. rewrite Hpage in Hd'.
  destruct (invoiceListData st) as [d|]; [| discriminate].
  injection Hd' as <-. simpl in Hin. apply in_map_iff in Hin.
  destruct Hin as [a [Ha _]]. subst inv. unfold markBatch in *.
  destruct (includes ids (id a)) eqn:Hinc; [reflexivity |].
  apply includes_In in Hid. congruence.
Qed.

Lemma bulk_submit_failure_restores_array_only_witness :
  NoDup (map id (invoices smallState)) /\
  nth_error [1; 2; 3] 1 = Some 2 /\
  submitRejects (submitRefuseSecond 1%nat 2) = true /\
  let st' := handleBulkSubmit submitRefuseSecond [1; 2; 3] smallState in
  invoices st' = invoices smallState /\
  (forall d', invoiceListData st' = Some d' ->
              forall inv, In inv (ld_invoices d') -> In (id inv) [1; 2; 3] -> status inv = 2).
Proof.
  assert (Hnd : NoDup (map id (invoices smallState))).
  { simpl. repeat constructor; simpl; intuition discriminate. }
  split; [exact Hnd |]. split; [reflexivity |]. split; [reflexivity |].
  apply (bulk_submit_failure_restores_array_only submitRefuseSecond [1; 2; 3] smallState
           1%nat 2 Hnd); reflexivity.
Defined.

(** A [null] body on an accepted submission: reading its field throws
    after the identifier of invoice 1 was written, and the catch puts the
    array back as it was. *)
Example bulk_submit_null_body_rolls_array_back :
  existsb submitRejects (submitAnswers submitNullSecond 0 [1; 2; 3]) = false /\
  invoices (handleBulkSubmit submitNullSecond [1; 2; 3] smallState) = invoices smallState /\
  invoices (handleBulkSubmit (submitAlways (submitted 200 (Some "DGI-1"%string)))
              [1; 2; 3] smallState)
  <> invoices smallState.
Proof.
  split; [reflexivity |]. split; [vm_compute; reflexivity |].
  vm_compute. discriminate.
Qed.

End BulkSubmitFacts.

(** * Further properties of the quote form *)

Import QuoteFormLines.

Section RoundingFacts.

Local Open Scope Q_scope.











End RoundingFacts.

Section FormLinesFacts.

Lemma dropAt_spec (index : nat) (lines : list QuoteForm.NewLine) :
  dropAt index lines = firstn index lines ++ skipn (S index) lines.
Proof.
  revert index. induction lines as [|ln rest IH]; intros [|k]; simpl; try reflexivity.
  f_equal. apply IH.
Qed.

Lemma dropAt_length (index : nat) (lines : list QuoteForm.NewLine) :
  List.length (dropAt index lines)
  = if (index <? List.length lines)%nat then Nat.pred (List.length lines)
    else List.length lines.
Proof.
  revert index. induction lines as [|ln rest IH]; intros [|k]; simpl; try reflexivity.
  rewrite IH. change (S k <? S (List.length rest))%nat with (k <? List.length rest)%nat.
  destruct (Nat.ltb_spec k (List.length rest)); [| reflexivity].
  destruct rest; simpl in *; [lia | reflexivity].
Qed.

(** X29: [removeLine] takes out exactly the line at the index when the form has
    at least two lines and the index is within bounds; otherwise the lines
    are unchanged.  A form that has a line never ends up without one. *)
Theorem removeLine_spec :
  forall (index : nat) (lines : list QuoteForm.NewLine),
    removeLine index lines
    = (if (1 <? List.length lines)%nat && (index <? List.length lines)%nat
       then firstn index lines ++ skipn (S index) lines
       else lines) /\
    (Nat.min 1 (List.length lines) <= List.length (removeLine index lines))%nat.
Proof.
  intros index lines. unfold removeLine.
  destruct (Nat.leb_spec (List.length lines) 1) as [Hle | Hgt].
  - assert (H1 : (1 <? List.length lines)%nat = false) by (apply Nat.ltb_ge; lia).
    rewrite H1. cbn [andb]. split; [reflexivity | lia].
  - assert (H1 : (1 <? List.length lines)%nat = true) by (apply Nat.ltb_lt; lia).
    rewrite H1. cbn [andb]. split.
    + rewrite dropAt_spec.
      destruct (Nat.ltb_spec index (List.length lines)) as [Hin | Hout]; [reflexivity |].
      rewrite firstn_all2 by lia. rewrite skipn_all2 by lia. apply app_nil_r.
    + rewrite dropAt_length. destruct (index <? List.length lines)%nat; lia.
Qed.

End FormLinesFacts.


(** * The totals of the quote form *)

Import Floats.

Section Binary64Facts.

Local Open Scope float_scope.

Lemma sumFrom_fold (f : QuoteFormBinary64.NewLine -> float)
  (lines : list QuoteFormBinary64.NewLine) (acc : float) :
  fold_left (fun sum ln => sum + f ln) lines acc
  = QuoteFormBinary64.sumFrom acc (map f lines).
Proof.
  revert acc. induction lines as [|ln rest IH]; intros acc; simpl; [reflexivity |].
  apply IH.
Qed.

(** One unit at 0.75 taxed at 10 %: 0.75, 0.07 and 0.82.  Three units at
    0.155 taxed at 100 %: 0.46, 0.47 and 0.93. *)
Example computeTotals_on_doubles :
  QuoteFormBinary64.computeTotals [QuoteFormBinary64.tenPercentLine]
    = QuoteFormBinary64.tenPercentTotals /\
  QuoteFormBinary64.computeTotals [QuoteFormBinary64.fullTaxLine]
    = QuoteFormBinary64.fullTaxTotals.
Proof. repeat split; vm_compute; reflexivity. Qed.

(** The sample line 0.3 x 4.21 at 20 %: 1.26, 0.25 and 1.52, while 1.26
    plus 0.25 is 1.51. *)
Example computeTotals_fractionalLine_binary64 :
  QuoteFormBinary64.computeTotals [QuoteFormBinary64.fractionalLine]
    = QuoteFormBinary64.shownTotals
  /\ QuoteFormBinary64.subTotal QuoteFormBinary64.shownTotals
     + QuoteFormBinary64.vat QuoteFormBinary64.shownTotals
     = QuoteFormBinary64.shownSum
  /\ (QuoteFormBinary64.total QuoteFormBinary64.shownTotals
      =? QuoteFormBinary64.shownSum) = false.
Proof. repeat split; vm_compute; reflexivity. Qed.

(** C9, against the claim as stated: for 0.3 units at 4.21 taxed at 20 %
    the code returns the total 1.52 while its subtotal plus its tax is
    1.51, so [total == subTotal + vat] is false. *)
Lemma total_not_subtotal_plus_tax_counterexample :
  (QuoteFormBinary64.total
     (QuoteFormBinary64.computeTotals [QuoteFormBinary64.fractionalLine])
   =? QuoteFormBinary64.subTotal
        (QuoteFormBinary64.computeTotals [QuoteFormBinary64.fractionalLine])
      + QuoteFormBinary64.vat
          (QuoteFormBinary64.computeTotals [QuoteFormBinary64.fractionalLine]))
  = false.
Proof. vm_compute. reflexivity. Qed.

(** What [toFixed2] returns: its argument unchanged, or a whole number of
    cents read back as a double, with the sign of the argument. *)
Lemma toFixed2_whole_cents (x : float) :
  QuoteFormBinary64.toFixed2 x = x \/
  exists n : Z,
    QuoteFormBinary64.toFixed2 x = QuoteFormBinary64.centsToFloat n \/
    QuoteFormBinary64.toFixed2 x = - QuoteFormBinary64.centsToFloat n.
Proof.
  unfold QuoteFormBinary64.toFixed2.
  destruct (Prim2SF x) as [s | s | | s m e]; try (left; reflexivity).
  - right. exists 0%Z. left. reflexivity.
  - destruct (1e21 <=? abs x); [left; reflexivity |].
    right. exists (QuoteFormBinary64.centsOf m e). destruct s; [right | left]; reflexivity.
Qed.

(** C9, amended: on the numbers the code computes with, the subtotal is
    the sum over the lines of quantity times unit price, rounded to two
    decimals by [toFixed(2)]; the tax is the sum of the line taxes, rounded
    likewise; and the total is the rounding of the sum of the two unrounded
    amounts, not the sum of the rounded subtotal and tax. *)
Theorem computeTotals_rounds_the_sums :
  forall lines : list QuoteFormBinary64.NewLine,
    QuoteFormBinary64.subTotal (QuoteFormBinary64.computeTotals lines)
      = QuoteFormBinary64.toFixed2
          (QuoteFormBinary64.sumOf (map QuoteFormBinary64.lineAmount lines)) /\
    QuoteFormBinary64.vat (QuoteFormBinary64.computeTotals lines)
      = QuoteFormBinary64.toFixed2
          (QuoteFormBinary64.sumOf (map QuoteFormBinary64.lineTax lines)) /\
    QuoteFormBinary64.total (QuoteFormBinary64.computeTotals lines)
      = QuoteFormBinary64.toFixed2
          (QuoteFormBinary64.sumOf (map QuoteFormBinary64.lineAmount lines)
           + QuoteFormBinary64.sumOf (map QuoteFormBinary64.lineTax lines)).
Proof.
  intros lines. unfold QuoteFormBinary64.computeTotals, QuoteFormBinary64.sumOf.
  cbn [QuoteFormBinary64.subTotal QuoteFormBinary64.vat QuoteFormBinary64.total].
  rewrite <- (sumFrom_fold QuoteFormBinary64.lineAmount lines 0).
  rewrite <- (sumFrom_fold QuoteFormBinary64.lineTax lines 0).
  repeat split.
Qed.

End Binary64Facts.

Section CentsFacts.

Local Open Scope Q_scope.

Lemma Qfloor_fraction (a : Z) (b : positive) (x : Q) :
  x == a # b -> Qfloor x = (a / Z.pos b)%Z.
Proof. intros H. rewrite (Qfloor_comp _ _ H). reflexivity. Qed.

(** [centsOf m e] is the exact value [m * 2^e] times 100, rounded to the
    nearest integer, the larger one on a tie. *)
Lemma centsOf_nearest (m : positive) (e : Z) :
  QuoteFormBinary64.centsOf m e
  = Qfloor (QuoteFormBinary64.exactValue m e * 100 + (1 # 2)).
Proof.
  unfold QuoteFormBinary64.centsOf, QuoteFormBinary64.exactValue.
  destruct (Z.leb_spec 0 e) as [He | He].
  - symmetry. generalize (Z.pos m * 2 ^ e)%Z. intros v.
    assert (H : inject_Z v * 100 + (1 # 2) == (2 * (v * 100) + 1) # 2).
    { unfold Qeq, inject_Z, Qplus, Qmult. cbn [Qnum Qden]. lia. }
    rewrite (Qfloor_fraction _ _ _ H).
    symmetry. apply Z.div_unique with (r := 1%Z); lia.
  - assert (Hk : (0 < 2 ^ (- e))%Z) by (apply Z.pow_pos_nonneg; lia).
    assert (Hk1 : (2 ^ (1 - e) = 2 * 2 ^ (- e))%Z).
    { replace (1 - e)%Z with (Z.succ (- e)) by lia. apply Z.pow_succ_r. lia. }
    rewrite Hk1.
    destruct (2 ^ (- e))%Z as [| p | p] eqn:Hp; try lia.
    symmetry.
    assert (H : inject_Z (Z.pos m) / inject_Z (Z.pos p) * 100 + (1 # 2)
                == (2 * (Z.pos m * 100) + Z.pos p) # (2 * p)).
    { unfold Qeq, Qdiv, Qinv, inject_Z, Qplus, Qmult. cbn [Qnum Qden]. lia. }
    rewrite (Qfloor_fraction _ _ _ H). reflexivity.
Qed.

End CentsFacts.

Section AddLineFacts.

Local Open Scope float_scope.

(** Adding zero changes a number only when it is the negative zero. *)
Lemma add_zero_spec (x : float) :
  Prim2SF (x + 0) = match Prim2SF x with
                    | S754_zero _ => S754_zero false
                    | sx => sx
                    end.
Proof.
  rewrite add_spec. change (Prim2SF 0) with (S754_zero false).
  destruct (Prim2SF x) as [[|] | [|] | | s m e]; reflexivity.
Qed.

Lemma toFixed2_of_zero (x : float) (s : bool) :
  Prim2SF x = S754_zero s -> QuoteFormBinary64.toFixed2 x = 0.
Proof. intros H. unfold QuoteFormBinary64.toFixed2. now rewrite H. Qed.

Lemma toFixed2_add_zero (x : float) :
  QuoteFormBinary64.toFixed2 (x + 0) = QuoteFormBinary64.toFixed2 x.
Proof.
  pose proof (add_zero_spec x) as H.
  destruct (Prim2SF x) as [s | s | | s m e] eqn:Hx.
  - rewrite (toFixed2_of_zero _ _ H). symmetry. exact (toFixed2_of_zero _ _ Hx).
  - rewrite <- Hx in H. apply Prim2SF_inj in H. now rewrite H.
  - rewrite <- Hx in H. apply Prim2SF_inj in H. now rewrite H.
  - rewrite <- Hx in H. apply Prim2SF_inj in H. now rewrite H.
Qed.

Lemma SFadd_zero_zero (s1 s2 : bool) :
  exists s, SF64add (S754_zero s1) (S754_zero s2) = S754_zero s.
Proof. destruct s1, s2; eexists; reflexivity. Qed.

Lemma toFixed2_add_zeros (a b : float) :
  QuoteFormBinary64.toFixed2 ((a + 0) + (b + 0)) = QuoteFormBinary64.toFixed2 (a + b).
Proof.
  pose proof (add_zero_spec a) as Ha. pose proof (add_zero_spec b) as Hb.
  pose proof (add_spec (a + 0) (b + 0)) as Hl. pose proof (add_spec a b) as Hr.
  rewrite Ha, Hb in Hl.
  destruct (Prim2SF a) as [sa | sa | | sa ma ea] eqn:HA;
    destruct (Prim2SF b) as [sb | sb | | sb mb eb] eqn:HB;
    try (rewrite <- Hr in Hl; apply Prim2SF_inj in Hl; now rewrite Hl);
    try (destruct sa; cbv [SF64add SFadd] in Hl, Hr;
         rewrite <- Hr in Hl; apply Prim2SF_inj in Hl; now rewrite Hl);
    try (destruct sb; cbv [SF64add SFadd] in Hl, Hr;
         rewrite <- Hr in Hl; apply Prim2SF_inj in Hl; now rewrite Hl).
  destruct (SFadd_zero_zero sa sb) as [s Hs]. rewrite Hs in Hr.
  rewrite (toFixed2_of_zero _ _ Hl). symmetry. exact (toFixed2_of_zero _ _ Hr).
Qed.

(** X28: [addLine] appends the blank line (one unit at price 0, taxed at
    20 %), and the totals of the form are the same with it as without it. *)
Theorem addLine_keeps_totals :
  forall lines : list QuoteFormBinary64.NewLine,
    QuoteFormBinary64.addLine lines
      = lines ++ [ {| QuoteFormBinary64.description := "";
                      QuoteFormBinary64.quantity := 1;
                      QuoteFormBinary64.unitPrice := 0;
                      QuoteFormBinary64.taxRate := Some 20 |} ] /\
    QuoteFormBinary64.computeTotals (QuoteFormBinary64.addLine lines)
      = QuoteFormBinary64.computeTotals lines.
Proof.
  intros lines. split; [reflexivity |].
  unfold QuoteFormBinary64.computeTotals, QuoteFormBinary64.addLine.
  rewrite !fold_left_app.
  cbn [fold_left QuoteFormBinary64.blankLine QuoteFormBinary64.quantity
         QuoteFormBinary64.unitPrice QuoteFormBinary64.taxRateOr20
         QuoteFormBinary64.taxRate].
  change (1 * 0) with 0. change (0 * 20 / 100) with 0.
  rewrite !toFixed2_add_zero, toFixed2_add_zeros. reflexivity.
Qed.

End AddLineFacts.
